(** * tbot: the U-Boot board machine, its channel and the board power scope

    A shallow embedding of [tbot/machine/board/uboot.py] and of the selftests
    [tbot/tc/selftest/machine.py] and [tbot/tc/selftest/board_machine.py].

    Python methods that talk to a channel are written as programs of a small
    free monad [Prog]: every call that leaves the method ([channel.send],
    [channel.read_until_prompt], [tbot.log.message], ...) is a [Do] node, and a
    raised exception is a [Raise] node.  [run] interprets a program against an
    arbitrary handler and records the calls in the order they were made. *)

From stdpp Require Import base list strings gmap.
From Stdlib Require Import String Ascii ZArith QArith Lia.

Local Close Scope Q_scope.
Local Open Scope string_scope.
Local Open Scope list_scope.

(** ** Python string operations used by the sources *)

Module PyStr.

(** ["\n"] *)
Definition nl_char : ascii := "010"%char.
Definition nl : string := String nl_char EmptyString.

(** the double quote character *)
Definition dq_char : ascii := "034"%char.
Definition sq_char : ascii := "039"%char.

(** [s[:-1]]: every character but the last; the empty string stays empty. *)
Fixpoint drop_last (s : string) : string :=
  match s with
  | EmptyString => EmptyString
  | String c EmptyString => EmptyString
  | String c rest => String c (drop_last rest)
  end.

(** [s[n:]] for [0 <= n]. *)
Fixpoint drop (n : nat) (s : string) : string :=
  match n, s with
  | O, _ => s
  | S n', EmptyString => EmptyString
  | S n', String _ rest => drop n' rest
  end.

(** [s[:n]] for [0 <= n]. *)
Fixpoint take (n : nat) (s : string) : string :=
  match n, s with
  | O, _ => EmptyString
  | S n', EmptyString => EmptyString
  | S n', String c rest => String c (take n' rest)
  end.

(** [s.find(sub)]: offset of the first occurrence of a non-empty [sub]. *)
Fixpoint find (sub s : string) : option nat :=
  if String.prefix sub s then Some 0
  else match s with
       | EmptyString => None
       | String _ rest => option_map S (find sub rest)
       end.

(** [s.split(sep, 1)] for a non-empty separator. *)
Definition split_1 (sep s : string) : list string :=
  match find sep s with
  | Some i => [take i s; drop (i + String.length sep) s]
  | None => [s]
  end.

(** [sep.join(l)] *)
Fixpoint join (sep : string) (l : list string) : string :=
  match l with
  | [] => EmptyString
  | [x] => x
  | x :: rest => x ++ sep ++ join sep rest
  end.

(** [s.replace(c, rep)] for a one-character [c]. *)
Fixpoint replace_char (c : ascii) (rep s : string) : string :=
  match s with
  | EmptyString => EmptyString
  | String a rest =>
      if Ascii.eqb a c then rep ++ replace_char c rep rest
      else String a (replace_char c rep rest)
  end.

(** [c in s] for a one-character [c]. *)
Fixpoint contains_char (c : ascii) (s : string) : bool :=
  match s with
  | EmptyString => false
  | String a rest => Ascii.eqb a c || contains_char c rest
  end.

End PyStr.

(** ** [shlex.quote] of the Python standard library

    [[
    _find_unsafe = re.compile(r'[^\w@%+=:,./-]', re.ASCII).search
    def quote(s):
        if not s:
            return "''"
        if _find_unsafe(s) is None:
            return s
        return "'" + s.replace("'", "'\"'\"'") + "'"
    ]] *)

Module shlex.
Import PyStr.

Definition in_range (lo hi : nat) (c : ascii) : bool :=
  (lo <=? nat_of_ascii c)%nat && (nat_of_ascii c <=? hi)%nat.

(** [\w] under [re.ASCII]: letters, digits and the underscore. *)
Definition is_word (c : ascii) : bool :=
  in_range 97 122 c || in_range 65 90 c || in_range 48 57 c
  || Ascii.eqb c "_".

(** the class [[\w@%+=:,./-]] *)
Definition is_safe (c : ascii) : bool :=
  is_word c
  || Ascii.eqb c "@" || Ascii.eqb c "%" || Ascii.eqb c "+"
  || Ascii.eqb c "=" || Ascii.eqb c ":" || Ascii.eqb c ","
  || Ascii.eqb c "." || Ascii.eqb c "/" || Ascii.eqb c "-".

(** [_find_unsafe(s) is not None] *)
Fixpoint find_unsafe (s : string) : bool :=
  match s with
  | EmptyString => false
  | String c rest => negb (is_safe c) || find_unsafe rest
  end.

(** the replacement text ['"'"'] : close the quote, a quoted quote, reopen *)
Definition quote_escape : string :=
  String sq_char (String dq_char (String sq_char (String dq_char
    (String sq_char EmptyString)))).

Definition quote (s : string) : string :=
  match s with
  | EmptyString => "''"
  | _ =>
      if find_unsafe s then
        "'" ++ replace_char sq_char quote_escape s ++ "'"
      else s
  end.

End shlex.

(** ** Data model *)

(** Identity of a channel object. *)
Definition chan_id := nat.

(** [tbot.log.Verbosity], the two levels the sources name. *)
Inductive Verbosity := QUIET | STDOUT.

(** [tbot.log.EventIO]: a text sink with a key, a display prefix, a verbosity
    and a dictionary of attached data. *)
Record EventIO := mkEventIO {
  ev_key : list string;
  ev_initial : string;
  ev_verbosity : Verbosity;
  ev_prefix : option string;
  ev_data : gmap string string;
  ev_buf : string;
}.

(** Modelled from the spec: the constructor of [tbot.log.EventIO] is not among
    the sources.  The sink is "an append-only text sink accepting streamed
    bytes as they are read"; it starts with nothing streamed into it, and the
    text handed to the constructor is kept as the title of the event. *)
Definition EventIO_new (key : list string) (initial : string)
    (verbosity : Verbosity) : EventIO :=
  {| ev_key := key; ev_initial := initial; ev_verbosity := verbosity;
     ev_prefix := None; ev_data := ∅; ev_buf := "" |}.

Definition set_verbosity (v : Verbosity) (ev : EventIO) : EventIO :=
  {| ev_key := ev_key ev; ev_initial := ev_initial ev; ev_verbosity := v;
     ev_prefix := ev_prefix ev; ev_data := ev_data ev; ev_buf := ev_buf ev |}.

Definition set_prefix (p : string) (ev : EventIO) : EventIO :=
  {| ev_key := ev_key ev; ev_initial := ev_initial ev;
     ev_verbosity := ev_verbosity ev;
     ev_prefix := Some p; ev_data := ev_data ev; ev_buf := ev_buf ev |}.

(** [ev.data[k] = v] *)
Definition set_data (k v : string) (ev : EventIO) : EventIO :=
  {| ev_key := ev_key ev; ev_initial := ev_initial ev;
     ev_verbosity := ev_verbosity ev;
     ev_prefix := ev_prefix ev;
     ev_data := <[k := v]> (ev_data ev);
     ev_buf := ev_buf ev |}.

(** [ev.write(text)] *)
Definition write (text : string) (ev : EventIO) : EventIO :=
  {| ev_key := ev_key ev; ev_initial := ev_initial ev;
     ev_verbosity := ev_verbosity ev;
     ev_prefix := ev_prefix ev; ev_data := ev_data ev;
     ev_buf := ev_buf ev ++ text |}.

(** [ev.getvalue()] *)
Definition getvalue (ev : EventIO) : string := ev_buf ev.

(** A board as the U-Boot machine sees it: its name and, when it has a serial
    connection, its channel. *)
Record Board := mkBoard {
  board_name : string;
  board_channel : option chan_id;
}.

(** The class attributes of [UBootMachine], which subclasses override. *)
Record UBootClass := mkUBootClass {
  autoboot_prompt : option string;
  autoboot_keys : string;
  prompt : string;
}.

(** The attributes as [UBootMachine] itself declares them. *)
Definition UBootMachine_defaults : UBootClass :=
  {| autoboot_prompt := Some "Hit any key to stop autoboot:\s+\d+\s+";
     autoboot_keys := PyStr.nl;
     prompt := "U-Boot> " |}.

(** An instance of [UBootMachine]. *)
Record UBootMachine := mkUBootMachine {
  cls : UBootClass;
  board : Board;
  channel : chan_id;
  bootlog : string;
}.

(** A path on a host, as the list of its components below the root. *)
Definition Path := list string.

(** The machine a failed command ran on. *)
Inductive Host :=
| HostUBoot (m : UBootMachine)
| HostLab.

(** The exceptions the sources raise or catch. *)
Inductive exn :=
| TimeoutError
| ChannelClosedException
| RuntimeError (msg : string)
| IndexError
| ValueError
| CommandFailedException (host : Host) (command : string) (stdout : string)
| AssertionError (msg : string)
| TestException.

Inductive result (A : Type) :=
| Ok (a : A)
| Err (e : exn).
Arguments Ok {A} a.
Arguments Err {A} e.

(** ** Command arguments *)

(** A special token ([tbot.machine.board.special.Special]): all that
    [build_command] asks of it is its own, unescaped, textual expansion. *)
Record Special := mkSpecial {
  resolve_string : string;
}.

(** Modelled from the spec: [special.Raw] is not among the sources; it is the
    "raw fragment" token, whose expansion is the text it was built from. *)
Definition Raw (text : string) : Special := {| resolve_string := text |}.

(** [p.relative_to(root)]: the components of [p] below [root], and a
    [ValueError] when [p] does not lie below [root]. *)
Fixpoint relative_to (p root : Path) : result Path :=
  match root, p with
  | [], _ => Ok p
  | r :: root', x :: p' =>
      if String.eqb r x then relative_to p' root' else Err ValueError
  | _ :: _, [] => Err ValueError
  end.

(** Modelled from the spec: [linux.Path] is not among the sources; it is a
    "path reference (rewritten relative to a fixed boot-loader-visible mount
    root before quoting)".  [_local_str] is the text of a relative path. *)
Definition _local_str (parts : Path) : string :=
  match parts with
  | [] => "."
  | _ => PyStr.join "/" parts
  end.

Inductive Arg :=
| AStr (s : string)
| ASpecial (t : Special)
| APath (p : Path).

(** ** Programs over the calls a method makes *)

(** The calls that leave the embedded methods: the channel's methods, the
    logger, the methods a board class supplies, and the lab host. *)
Inductive Call :=
| ReadUntilPrompt (c : chan_id) (prompt : string) (regex : bool)
    (stream : option EventIO) (timeout : option Q)
| Send (c : chan_id) (data : string)
| AttachInteractive (c : chan_id)
| Close (c : chan_id)
| RawCommandWithRetval (c : chan_id) (command : string) (prompt : string)
    (stream : option EventIO)
| LogMessage (msg : string)
| PowerOn
| PowerOff
| Connect
| LabExec0 (args : list Arg)
| PathExists (p : Path).

(** What a call gives back.  A reading call also reports the text it wrote to
    the stream it was given, which it does whether or not it then raises. *)
Definition reply (c : Call) : Type :=
  match c with
  | ReadUntilPrompt _ _ _ _ _ => string * result string
  | Send _ _ => result unit
  | AttachInteractive _ => result unit
  | Close _ => result unit
  | RawCommandWithRetval _ _ _ _ => string * result (Z * string)
  | LogMessage _ => unit
  | PowerOn => result unit
  | PowerOff => result unit
  | Connect => result chan_id
  | LabExec0 _ => result string
  | PathExists _ => bool
  end.

Definition result_exn {A : Type} (r : result A) : option exn :=
  match r with
  | Ok _ => None
  | Err e => Some e
  end.

(** The exception a call raised, if it raised one. *)
Definition reply_exn (c : Call) : reply c -> option exn :=
  match c with
  | ReadUntilPrompt _ _ _ _ _ => fun r => result_exn (snd r)
  | Send _ _ => result_exn
  | AttachInteractive _ => result_exn
  | Close _ => result_exn
  | RawCommandWithRetval _ _ _ _ => fun r => result_exn (snd r)
  | LogMessage _ => fun _ => None
  | PowerOn => result_exn
  | PowerOff => result_exn
  | Connect => result_exn
  | LabExec0 _ => result_exn
  | PathExists _ => fun _ => None
  end.

Inductive Prog (A : Type) : Type :=
| Ret (a : A)
| Raise (e : exn)
| Do (c : Call) (k : reply c -> Prog A).
Arguments Ret {A} a.
Arguments Raise {A} e.
Arguments Do {A} c k.

Fixpoint bind {A B : Type} (p : Prog A) (f : A -> Prog B) : Prog B :=
  match p with
  | Ret a => f a
  | Raise e => Raise e
  | Do c k => Do c (fun r => bind (k r) f)
  end.

(** [try: p  except ...]; [handler] gives [None] for an exception that no
    [except] clause names. *)
Fixpoint try_except {A : Type} (p : Prog A) (handler : exn -> option (Prog A))
    : Prog A :=
  match p with
  | Ret a => Ret a
  | Raise e => match handler e with Some q => q | None => Raise e end
  | Do c k => Do c (fun r => try_except (k r) handler)
  end.

(** [try: p  finally: q] *)
Fixpoint try_finally {A : Type} (p : Prog A) (q : Prog unit) : Prog A :=
  match p with
  | Ret a => bind q (fun _ => Ret a)
  | Raise e => bind q (fun _ => Raise e)
  | Do c k => Do c (fun r => try_finally (k r) q)
  end.

Definition lift {A : Type} (r : result A) : Prog A :=
  match r with
  | Ok a => Ret a
  | Err e => Raise e
  end.

(** [assert cond, msg] *)
Definition assert (cond : bool) (msg : string) : Prog unit :=
  if cond then Ret tt else Raise (AssertionError msg).

Declare Scope prog_scope.
Delimit Scope prog_scope with prog.
Notation "x <- p ;; q" := (bind p (fun x => q))
  (at level 100, p at next level, right associativity) : prog_scope.
Notation "p ;; q" := (bind p (fun _ => q))
  (at level 100, right associativity) : prog_scope.
Local Open Scope prog_scope.

(** One call together with what it gave back. *)
Record Step := mkStep {
  step_call : Call;
  step_reply : reply step_call;
}.

Definition step_exn (st : Step) : option exn :=
  reply_exn (step_call st) (step_reply st).

(** A handler answers every call from a state of its own. *)
Definition handler (S : Type) := forall c : Call, S -> reply c * S.

(** [run h p s]: the outcome of [p], the handler's final state and the steps
    taken, first step first. *)
Fixpoint run {S A : Type} (h : handler S) (p : Prog A) (s : S)
    : result A * S * list Step :=
  match p with
  | Ret a => (Ok a, s, [])
  | Raise e => (Err e, s, [])
  | Do c k =>
      let r := run h (k (fst (h c s))) (snd (h c s)) in
      (fst (fst r), snd (fst r), mkStep c (fst (h c s)) :: snd r)
  end.

Definition outcome {S A : Type} (x : result A * S * list Step) : result A :=
  fst (fst x).
Definition final {S A : Type} (x : result A * S * list Step) : S :=
  snd (fst x).
Definition steps {S A : Type} (x : result A * S * list Step) : list Step :=
  snd x.
Definition calls {S A : Type} (x : result A * S * list Step) : list Call :=
  List.map step_call (snd x).

(** ** The channel's methods as seen by a caller *)

Module channel_api.

(** Modelled from the spec: the signature of [Channel.read_until_prompt] is
    not among the sources; a call that does not pass [regex] matches the
    prompt literally ("read_until_prompt(prompt, regex=false)"). *)
Definition regex_default : bool := false.

(** [ch.read_until_prompt(prompt, regex=.., stream=.., timeout=..)]: gives
    the text the channel wrote to [stream] together with the log read. *)
Definition read_until_prompt (ch : chan_id) (prompt : string) (regex : bool)
    (stream : option EventIO) (timeout : option Q)
    : Prog (string * string) :=
  Do (ReadUntilPrompt ch prompt regex stream timeout)
     (fun r =>
        match snd r with
        | Ok log => Ret (fst r, log)
        | Err e => Raise e
        end).

Definition send (ch : chan_id) (data : string) : Prog unit :=
  Do (Send ch data) lift.

Definition attach_interactive (ch : chan_id) : Prog unit :=
  Do (AttachInteractive ch) lift.

Definition close (ch : chan_id) : Prog unit :=
  Do (Close ch) lift.

(** [ch.raw_command_with_retval(command, prompt=.., stream=..)]: gives the
    text written to [stream] together with the return code and output. *)
Definition raw_command_with_retval (ch : chan_id) (command prompt : string)
    (stream : option EventIO) : Prog (string * (Z * string)) :=
  Do (RawCommandWithRetval ch command prompt stream)
     (fun r =>
        match snd r with
        | Ok ro => Ret (fst r, ro)
        | Err e => Raise e
        end).

(** [tbot.log.message(msg)] *)
Definition log_message (msg : string) : Prog unit :=
  Do (LogMessage msg) Ret.

End channel_api.

(** ** [class UBootMachine] *)

Module UBoot.
Import PyStr channel_api.

(** The [name] property: [self.board.name + "-uboot"]. *)
Definition name (b : Board) : string := board_name b ++ "-uboot".

(** The [for arg in args] loop of [build_command], from the command text
    built so far. *)
Fixpoint build_command_loop (command : string) (args : list Arg)
    : result string :=
  match args with
  | [] => Ok command
  | APath p :: rest =>
      match relative_to p ["tftpboot"] with
      | Ok rel =>
          build_command_loop
            (command ++ (shlex.quote (_local_str rel) ++ " ")) rest
      | Err e => Err e
      end
  | ASpecial t :: rest =>
      build_command_loop (command ++ (resolve_string t ++ " ")) rest
  | AStr s :: rest =>
      build_command_loop (command ++ (shlex.quote s ++ " ")) rest
  end.

Definition build_command (args : list Arg) : result string :=
  match build_command_loop "" args with
  | Ok command => Ok (drop_last command)
  | Err e => Err e
  end.

(** The sink [boot_ev] as [__init__] sets it up.  The event title is the
    text ["UBOOT (<name>)"]; its terminal styling is left out. *)
Definition boot_ev_new (b : Board) : EventIO :=
  set_prefix "   <> "
    (set_verbosity STDOUT
       (EventIO_new ["board"; "uboot"; board_name b]
          ("UBOOT" ++ " (" ++ name b ++ ")") QUIET)).

(** [UBootMachine.__init__], for the class attributes [k]. *)
Definition __init__ (k : UBootClass) (b : Board) : Prog UBootMachine :=
  match board_channel b with
  | None =>
      Raise (RuntimeError "{board!r} does not support a serial connection!")
  | Some ch =>
      let boot_ev := boot_ev_new b in
      boot_ev <-
        match autoboot_prompt k with
        | Some ab =>
            r <- read_until_prompt ch ab true (Some boot_ev) None ;;
            let boot_ev := write (fst r) boot_ev in
            let boot_ev := set_data "output" (snd r) boot_ev in
            send ch (autoboot_keys k) ;;
            _ <- read_until_prompt ch (prompt k) regex_default None None ;;
            Ret boot_ev
        | None =>
            r <- read_until_prompt ch (prompt k) regex_default
                   (Some boot_ev) None ;;
            Ret (write (fst r) boot_ev)
        end ;;
      match nth_error (split_1 nl (getvalue boot_ev)) 1 with
      | Some tail =>
          Ret {| cls := k; board := b; channel := ch; bootlog := tail |}
      | None => Raise IndexError
      end
  end.

(** [destroy] *)
Definition destroy (self : UBootMachine) : Prog unit :=
  close (channel self).

(** Modelled from the spec: [tbot.log_event.command] is not among the
    sources; it opens the observability sink a command and its output are
    streamed to, named here by the machine and the command line. *)
Definition log_event_command (mach command : string) : EventIO :=
  EventIO_new ["cmd"; mach] command STDOUT.

Definition exec (self : UBootMachine) (args : list Arg)
    : Prog (Z * string) :=
  command <- lift (build_command args) ;;
  let ev := log_event_command (name (board self)) command in
  let ev := set_prefix "   >> " ev in
  r <- raw_command_with_retval (channel self) command (prompt (cls self))
         (Some ev) ;;
  let ev := write (fst r) ev in
  let '(ret, out) := snd r in
  let ev := set_data "stdout" out ev in
  Ret (ret, out).

Definition exec0 (self : UBootMachine) (args : list Arg) : Prog string :=
  r <- exec self args ;;
  let '(ret, out) := r in
  if negb (ret =? 0)%Z then
    command <- lift (build_command args) ;;
    Raise (CommandFailedException (HostUBoot self) command out)
  else Ret out.

Definition test (self : UBootMachine) (args : list Arg) : Prog bool :=
  r <- exec self args ;;
  Ret (fst r =? 0)%Z.

(** [env]: the argument is [special.Raw(f"${{{var}}}")]. *)
Definition env (self : UBootMachine) (var : string) : Prog string :=
  out <- exec0 self [AStr "echo"; ASpecial (Raw ("${" ++ var ++ "}"))] ;;
  Ret (drop_last out).

Definition interactive (self : UBootMachine) : Prog unit :=
  log_message "Entering interactive shell (CTRL+D to exit) ..." ;;
  send (channel self) (" " ++ nl) ;;
  attach_interactive (channel self) ;;
  send (channel self) (" " ++ nl) ;;
  try_except
    (_ <- read_until_prompt (channel self) (prompt (cls self)) regex_default
            None (Some (1 # 2)%Q) ;;
     Ret tt)
    (fun e =>
       match e with
       | TimeoutError =>
           Some (Raise (RuntimeError
                   "Failed to reacquire U-Boot after interactive session!"))
       | _ => None
       end) ;;
  log_message "Exiting interactive shell ...".

End UBoot.

(** ** The channel

    Modelled from the spec: the class [tbot.machine.channel.Channel] is not
    among the sources.  The model follows the contract of section 4.1:
    [send], [recv], [read_until_prompt], [close] and [isopen].  Time is not
    modelled: what the transport will deliver, and when it stays silent past
    a timeout, is a script the channel carries. *)

Module Channel.
Import PyStr.

(** What the transport does at the next low-level read: deliver bytes, stay
    silent until the timeout, or report that the peer closed. *)
Inductive Incoming :=
| Data (bytes : string)
| Quiet
| Hangup.

Record t := mk {
  closed : bool;
  buffer : string;            (* read from the transport, not yet consumed *)
  wire : list Incoming;       (* what the transport delivers from now on *)
  sent : list string;         (* what has been written to the transport *)
}.

Definition set_closed (ch : t) : t :=
  {| closed := true; buffer := buffer ch; wire := wire ch; sent := sent ch |}.

(** [isopen()]: "reflects current open/closed state without performing
    I/O". *)
Definition isopen (ch : t) : bool := negb (closed ch).

(** [close()]: "idempotent; releases the transport". *)
Definition close (ch : t) : result unit * t := (Ok tt, set_closed ch).

(** [send(bytes)]: "writes raw bytes to the transport.  Fails with
    ChannelClosed if the channel is closed". *)
Definition send (data : string) (ch : t) : result unit * t :=
  if closed ch then (Err ChannelClosedException, ch)
  else (Ok tt,
        {| closed := false; buffer := buffer ch; wire := wire ch;
           sent := sent ch ++ [data] |}).

(** [recv(timeout)]: "returns whatever bytes are available within timeout;
    returns immediately if data is already buffered; fails with Timeout if
    none arrives in time; fails with ChannelClosed if the peer closed the
    connection (detected either by a zero-length read or an explicit close
    signal) -- this failure is sticky". *)
Definition recv (ch : t) : result string * t :=
  if closed ch then (Err ChannelClosedException, ch)
  else
    match buffer ch with
    | String _ _ =>
        (Ok (buffer ch),
         {| closed := false; buffer := ""; wire := wire ch;
            sent := sent ch |})
    | EmptyString =>
        match wire ch with
        | [] => (Err TimeoutError, ch)
        | Quiet :: w =>
            (Err TimeoutError,
             {| closed := false; buffer := ""; wire := w; sent := sent ch |})
        | Hangup :: w =>
            (Err ChannelClosedException,
             {| closed := true; buffer := ""; wire := w; sent := sent ch |})
        | Data EmptyString :: w =>
            (Err ChannelClosedException,
             {| closed := true; buffer := ""; wire := w; sent := sent ch |})
        | Data bytes :: w =>
            (Ok bytes,
             {| closed := false; buffer := ""; wire := w; sent := sent ch |})
        end
    end.

Section Pattern.

(** The regular-expression engine: [re_search pattern buf] is the offset
    just past the match of [pattern] in [buf], if there is one. *)
Variable re_search : string -> string -> option nat.

(** "a single Pattern abstraction with two variants (literal,
    regular-expression)": the offset just past the match. *)
Definition search (pattern : string) (regex : bool) (buf : string)
    : option nat :=
  if regex then re_search pattern buf
  else option_map (fun i => i + String.length pattern) (find pattern buf).

(** "repeatedly recvs and appends to an accumulation buffer, checking after
    every chunk whether the buffer's tail matches pattern ...  On match,
    returns the complete buffer up to and including the match ...  bytes
    after the matched prompt ... remain buffered for the next call".
    [n] bounds the number of reads before the overall ceiling.  The
    second component is what was mirrored to the sink. *)
Fixpoint read_loop (n : nat) (pattern : string) (regex : bool)
    (acc : string) (ch : t) : result string * string * t :=
  match n with
  | O => (Err TimeoutError, acc, ch)
  | S n' =>
      match recv ch with
      | (Err e, ch') => (Err e, acc, ch')
      | (Ok chunk, ch') =>
          let acc' := (acc ++ chunk)%string in
          match search pattern regex acc' with
          | Some e =>
              (Ok (take e acc'), take e acc',
               {| closed := closed ch';
                  buffer := drop e acc' ++ buffer ch';
                  wire := wire ch'; sent := sent ch' |})
          | None => read_loop n' pattern regex acc' ch'
          end
      end
  end.

Definition read_until_prompt (pattern : string) (regex : bool) (ch : t)
    : result string * string * t :=
  read_loop (S (List.length (wire ch))) pattern regex "" ch.

End Pattern.

(** A regular expression without metacharacters matches as a literal. *)
Definition re_literal (pattern buf : string) : option nat :=
  option_map (fun i => i + String.length pattern) (find pattern buf).

End Channel.

(** ** The board scope

    Modelled from the spec: the class [board.Board], whose [__enter__] and
    [__exit__] make the scope of [with TestBoard(lh):], is not among the
    sources.  Section 4.4: "Entering the scope invokes power-on then connect
    (producing the Channel) ...  Leaving the scope -- whether normally or via
    an error/exception unwinding through the scope -- invokes disconnect
    (channel close) and power-off exactly once, in that order, using
    guaranteed-run-on-exit semantics ...: no code path may skip power-off once
    power-on has succeeded."  [poweron], [poweroff] and [connect] are the
    methods the board class supplies; they are calls the handler answers. *)

Module BoardScope.

Definition poweron : Prog unit := Do PowerOn lift.
Definition poweroff : Prog unit := Do PowerOff lift.
Definition connect : Prog chan_id := Do Connect lift.

(** [with <board class>(lh) as b: body] for a board named [name]. *)
Definition with_board {A : Type} (name : string) (body : Board -> Prog A)
    : Prog A :=
  poweron ;;
  try_finally
    (ch <- connect ;;
     try_finally
       (body {| board_name := name; board_channel := Some ch |})
       (channel_api.close ch))
    poweroff.

End BoardScope.

(** ** The dummy board of the selftests and the lab host it runs on *)

Module TestBoard.
Import PyStr.

(** [name = "test"] *)
Definition name : string := "test".

(** The lab host with the dummy board: the files on the host, its work
    directory, the channels opened so far, what a newly connected console
    delivers (with and without the autoboot prompt), what the console's
    shell answers to a command line, and the log. *)
Record World := mkWorld {
  files : gset Path;
  workdir : Path;
  has_autoboot : bool;
  chans : gmap chan_id Channel.t;
  console : bool -> list Channel.Incoming;
  shell : string -> Z * string;
  log : list string;
}.

Definition set_files (f : gset Path) (w : World) : World :=
  {| files := f; workdir := workdir w; has_autoboot := has_autoboot w;
     chans := chans w; console := console w; shell := shell w;
     log := log w |}.

Definition set_chans (c : gmap chan_id Channel.t) (w : World) : World :=
  {| files := files w; workdir := workdir w; has_autoboot := has_autoboot w;
     chans := c; console := console w; shell := shell w; log := log w |}.

Definition add_log (msg : string) (w : World) : World :=
  {| files := files w; workdir := workdir w; has_autoboot := has_autoboot w;
     chans := chans w; console := console w; shell := shell w;
     log := log w ++ [msg] |}.

Definition discard {A : Type} (x : result A * World) : result unit * World :=
  match x with
  | (Ok _, w) => (Ok tt, w)
  | (Err e, w) => (Err e, w)
  end.

(** [lh.workdir / "selftest_power"] *)
Definition power_path (wd : Path) : Path := wd ++ ["selftest_power"].

(** [TestBoard.connect]: [lh.new_channel(...)] with the shell script for a
    console with or without the autoboot prompt.  The script's text is left
    out; what the console it sets up delivers is [console w]. *)
Definition connect (w : World) : result chan_id * World :=
  let c := fresh (dom (chans w)) in
  (Ok c,
   set_chans
     (<[c := {| Channel.closed := false; Channel.buffer := "";
                Channel.wire := console w (has_autoboot w);
                Channel.sent := [] |}]> (chans w)) w).

(** A method of the channel [c]; a channel object that does not exist
    answers as a closed one. *)
Definition on_chan {A : Type} (c : chan_id)
    (f : Channel.t -> A * Channel.t) (closed : A) (w : World) : A * World :=
  match chans w !! c with
  | Some ch => (fst (f ch), set_chans (<[c := snd (f ch)]> (chans w)) w)
  | None => (closed, w)
  end.

(** What the sink, if there is one, receives. *)
Definition mirrored (stream : option EventIO) (text : string) : string :=
  match stream with
  | Some _ => text
  | None => ""
  end.

Section Handler.

Variable re_search : string -> string -> option nat.

(** [lh.exec0(...)]: the class [LabHost] and the programs it runs are not
    among the sources, so what a command line does on the lab host, and
    whether it fails, is a parameter. *)
Variable lab_exec0 : list Arg -> World -> result string * World.

(** [TestBoard.poweron] *)
Definition poweron (w : World) : result unit * World :=
  discard (lab_exec0 [AStr "touch"; APath (power_path (workdir w))] w).

(** [TestBoard.poweroff] *)
Definition poweroff (w : World) : result unit * World :=
  discard (lab_exec0 [AStr "rm"; APath (power_path (workdir w))] w).

Definition handle : handler World :=
  fun c =>
    match c return World -> reply c * World with
    | ReadUntilPrompt c pattern regex stream _ =>
        on_chan c
          (fun ch =>
             let '(r, written, ch') :=
               Channel.read_until_prompt re_search pattern regex ch in
             ((mirrored stream written, r), ch'))
          ("", Err ChannelClosedException)
    | Send c data => on_chan c (Channel.send data) (Err ChannelClosedException)
    | AttachInteractive c =>
        on_chan c
          (fun ch =>
             (if Channel.closed ch then Err ChannelClosedException
              else Ok tt, ch))
          (Err ChannelClosedException)
    | Close c => on_chan c Channel.close (Ok tt)
    | RawCommandWithRetval c command _ stream =>
        fun w =>
          on_chan c
            (fun ch =>
               match Channel.send (command ++ nl) ch with
               | (Ok _, ch') =>
                   ((mirrored stream (snd (shell w command)),
                     Ok (shell w command)), ch')
               | (Err e, ch') => (("", Err e), ch')
               end)
            ("", Err ChannelClosedException) w
    | LogMessage msg => fun w => (tt, add_log msg w)
    | PowerOn => poweron
    | PowerOff => poweroff
    | Connect => connect
    | LabExec0 args => lab_exec0 args
    | PathExists p => fun w => (bool_decide (p ∈ files w), w)
    end.

End Handler.

End TestBoard.

(** ** The selftests *)

Module selftest.
Import PyStr channel_api.

Definition path_exists (p : Path) : Prog bool := Do (PathExists p) Ret.

(** [selftest_board_power], on a lab host whose work directory is [wd]. *)
Definition selftest_board_power (wd : Path) : Prog unit :=
  let power_path := TestBoard.power_path wd in
  e <- path_exists power_path ;;
  (if e then
     _ <- Do (LabExec0 [AStr "rm"; APath power_path]) lift ;; Ret tt
   else Ret tt) ;;
  log_message "Emulating a normal run ..." ;;
  e <- path_exists power_path ;;
  assert (negb e) "" ;;
  BoardScope.with_board TestBoard.name
    (fun _ => e <- path_exists power_path ;; assert e "") ;;
  e <- path_exists power_path ;;
  assert (negb e) "" ;;
  log_message "Emulating a failing run ..." ;;
  try_except
    (BoardScope.with_board TestBoard.name
       (fun _ =>
          e <- path_exists power_path ;;
          assert e "" ;;
          log_message "raise TestException()" ;;
          Raise TestException))
    (fun e =>
       match e with
       | TestException => Some (Ret tt)
       | _ => None
       end) ;;
  e <- path_exists power_path ;;
  assert (negb e) "".

(** [selftest_machine_channel] works on a channel object directly; it is
    written in state-passing style over the channel. *)
Definition ChanM (A : Type) : Type := Channel.t -> result A * Channel.t.

Definition cret {A : Type} (a : A) : ChanM A := fun ch => (Ok a, ch).

Definition cbind {A B : Type} (m : ChanM A) (f : A -> ChanM B) : ChanM B :=
  fun ch =>
    match m ch with
    | (Ok a, ch') => f a ch'
    | (Err e, ch') => (Err e, ch')
    end.

Definition cassert (cond : bool) (msg : string) : ChanM unit :=
  fun ch => (if cond then Ok tt else Err (AssertionError msg), ch).

(** [raised = False; try: m; except ChannelClosedException: raised = True] *)
Definition raises_closed {A : Type} (m : ChanM A) : ChanM bool :=
  fun ch =>
    match m ch with
    | (Ok _, ch') => (Ok false, ch')
    | (Err ChannelClosedException, ch') => (Ok true, ch')
    | (Err e, ch') => (Err e, ch')
    end.

Section MachineChannel.

(** [ch.raw_command(command, timeout=1)], whose protocol the spec leaves
    open. *)
Variable raw_command : string -> ChanM string.

Definition selftest_machine_channel (remote_close : bool) : ChanM unit :=
  cbind (raw_command "echo Hello World") (fun out =>
  cbind (cassert (String.eqb out ("Hello World" ++ nl)) out) (fun _ =>
  cbind (fun ch => (Ok (Channel.isopen ch), ch)) (fun o =>
  cbind (cassert o "") (fun _ =>
  cbind
    (if remote_close then
       cbind (Channel.send ("exit" ++ nl)) (fun _ =>
       cbind Channel.recv (fun _ =>
       cbind (raises_closed Channel.recv) (fun raised =>
       cassert raised "")))
     else Channel.close)
    (fun _ =>
  cbind (fun ch => (Ok (Channel.isopen ch), ch)) (fun o =>
  cbind (cassert (negb o) "") (fun _ =>
  cbind (raises_closed (Channel.send nl)) (fun raised =>
  cbind (cassert raised "") (fun _ =>
  cbind (raises_closed Channel.recv) (fun raised =>
  cassert raised "")))))))))).

End MachineChannel.

End selftest.

(** ** Word splitting by the target shell

    The quoting rules of the POSIX shell command language (section 2.2), to
    which the U-Boot shell keeps for quotes and backslashes: blanks separate
    words; a backslash quotes the next character; single quotes quote
    everything up to the next single quote; double quotes quote everything
    but the dollar sign, the backquote and the backslash.  Expansions,
    operators, comments and patterns are not modelled: a command line in
    which one of their characters stands unquoted is not split. *)

Module sh.
Import PyStr.

Inductive Mode := Unquoted | InSingle | InDouble.

Definition is_blank (c : ascii) : bool :=
  Ascii.eqb c " " || Ascii.eqb c "009".

(** Characters that are operators or start an expansion, a comment or a
    pattern when they stand unquoted. *)
Definition is_active (c : ascii) : bool :=
  Ascii.eqb c "|" || Ascii.eqb c "&" || Ascii.eqb c ";" || Ascii.eqb c "<"
  || Ascii.eqb c ">" || Ascii.eqb c "(" || Ascii.eqb c ")" || Ascii.eqb c "$"
  || Ascii.eqb c "`" || Ascii.eqb c nl_char || Ascii.eqb c "*"
  || Ascii.eqb c "?" || Ascii.eqb c "[" || Ascii.eqb c "#" || Ascii.eqb c "~".

(** Inside double quotes a backslash quotes only these. *)
Definition dq_escapable (c : ascii) : bool :=
  Ascii.eqb c "$" || Ascii.eqb c "`" || Ascii.eqb c dq_char
  || Ascii.eqb c "\".

(** The word under construction with one more character. *)
Definition push (c : ascii) (cur : option string) : option string :=
  match cur with
  | Some w => Some (w ++ String c EmptyString)%string
  | None => Some (String c EmptyString)
  end.

(** A quote opens a word if none is open. *)
Definition open_word (cur : option string) : option string :=
  match cur with
  | Some w => Some w
  | None => Some EmptyString
  end.

Definition emit (cur : option string) (words : option (list string))
    : option (list string) :=
  match cur with
  | Some w => option_map (cons w) words
  | None => words
  end.

Fixpoint split_loop (mode : Mode) (cur : option string) (s : string)
    : option (list string) :=
  match s with
  | EmptyString =>
      match mode with
      | Unquoted => emit cur (Some [])
      | _ => None
      end
  | String c rest =>
      match mode with
      | InSingle =>
          if Ascii.eqb c sq_char then split_loop Unquoted cur rest
          else split_loop InSingle (push c cur) rest
      | InDouble =>
          if Ascii.eqb c dq_char then split_loop Unquoted cur rest
          else if Ascii.eqb c "\" then
            match rest with
            | EmptyString => None
            | String d rest' =>
                if dq_escapable d then split_loop InDouble (push d cur) rest'
                else if Ascii.eqb d nl_char then split_loop InDouble cur rest'
                else split_loop InDouble (push d (push c cur)) rest'
            end
          else if Ascii.eqb c "$" || Ascii.eqb c "`" then None
          else split_loop InDouble (push c cur) rest
      | Unquoted =>
          if is_blank c then emit cur (split_loop Unquoted None rest)
          else if Ascii.eqb c sq_char then
            split_loop InSingle (open_word cur) rest
          else if Ascii.eqb c dq_char then
            split_loop InDouble (open_word cur) rest
          else if Ascii.eqb c "\" then
            match rest with
            | EmptyString => None
            | String d rest' =>
                if Ascii.eqb d nl_char then split_loop Unquoted cur rest'
                else split_loop Unquoted (push d cur) rest'
            end
          else if is_active c then None
          else split_loop Unquoted (push c cur) rest
      end
  end.

(** The words of a command line, or [None] when the line is not within the
    modelled fragment (an open quote, an unquoted active character). *)
Definition split (line : string) : option (list string) :=
  split_loop Unquoted None line.

End sh.

(** ** The U-Boot classes of the selftests and a lab host to run them on *)

(** [class TestBoardUBoot(board.UBootMachine[TestBoard])]; [autoboot_keys] is
    inherited. *)
Definition TestBoardUBoot : UBootClass :=
  {| autoboot_prompt := Some "Autoboot: ";
     autoboot_keys := autoboot_keys UBootMachine_defaults;
     prompt := "Test-U-Boot> " |}.

(** [class TestBoardUBootNoAB(board.UBootMachine[TestBoard])] *)
Definition TestBoardUBootNoAB : UBootClass :=
  {| autoboot_prompt := None;
     autoboot_keys := autoboot_keys UBootMachine_defaults;
     prompt := "Test-U-Boot> " |}.

Module Demo.
Import PyStr.

(** A console that prints a banner line and the autoboot prompt, then, once
    interrupted, a new line and the steady prompt. *)
Definition console_autoboot : list Channel.Incoming :=
  [Channel.Data ("U-Boot 2020.01" ++ nl ++ "Autoboot: ");
   Channel.Data (nl ++ "Test-U-Boot> ")].

(** A console that prints its prompts without a line break before them. *)
Definition console_one_line : list Channel.Incoming :=
  [Channel.Data "Autoboot: "; Channel.Data "Test-U-Boot> "].

(** A console that stays silent. *)
Definition console_silent : list Channel.Incoming := [Channel.Quiet].

Definition shell (command : string) : Z * string :=
  if String.eqb command "false" then (1%Z, "") else (0%Z, "").

(** A fresh channel to a console. *)
Definition open_channel (wire : list Channel.Incoming) : Channel.t :=
  {| Channel.closed := false; Channel.buffer := "";
     Channel.wire := wire; Channel.sent := [] |}.

(** The text of an absolute path. *)
Definition path_text (p : Path) : string := "/" ++ join "/" p.

(** The lab host of the examples knows two commands: [touch] creates the
    file; [rm] removes it, and fails when there is none. *)
Definition lab_exec0 (args : list Arg) (w : TestBoard.World)
    : result string * TestBoard.World :=
  match args with
  | [AStr "touch"; APath p] =>
      (Ok "", TestBoard.set_files ({[ p ]} ∪ TestBoard.files w) w)
  | [AStr "rm"; APath p] =>
      if bool_decide (p ∈ TestBoard.files w)
      then (Ok "", TestBoard.set_files (TestBoard.files w ∖ {[ p ]}) w)
      else (Err (CommandFailedException HostLab ("rm " ++ path_text p) ""),
            w)
  | _ => (Err (RuntimeError "command not known"), w)
  end.

(** A lab host on which channel [0] is connected to a console. *)
Definition world (wire : list Channel.Incoming) : TestBoard.World :=
  {| TestBoard.files := ∅;
     TestBoard.workdir := ["tmp"];
     TestBoard.has_autoboot := true;
     TestBoard.chans :=
       {[ 0%nat := open_channel wire ]};
     TestBoard.console := fun _ => wire;
     TestBoard.shell := shell;
     TestBoard.log := [] |}.

Definition handle : handler TestBoard.World :=
  TestBoard.handle Channel.re_literal lab_exec0.

Definition test_board : Board :=
  {| board_name := TestBoard.name; board_channel := Some 0%nat |}.

Definition machine : UBootMachine :=
  {| cls := TestBoardUBoot; board := test_board; channel := 0%nat;
     bootlog := "Autoboot: " |}.

End Demo.

(** ** Sequences of operations on a channel *)

Module ChannelOps.

(** The operations of the channel's contract. *)
Inductive Op :=
| OpSend (data : string)
| OpRecv
| OpReadUntilPrompt (pattern : string) (regex : bool)
| OpClose
| OpIsOpen.

(** What an operation gave back. *)
Inductive Obs :=
| ObsUnit (r : result unit)
| ObsText (r : result string)
| ObsBool (b : bool).

Section Apply.

Variable re_search : string -> string -> option nat.

Definition apply (op : Op) (ch : Channel.t) : Obs * Channel.t :=
  match op with
  | OpSend data =>
      (ObsUnit (fst (Channel.send data ch)), snd (Channel.send data ch))
  | OpRecv => (ObsText (fst (Channel.recv ch)), snd (Channel.recv ch))
  | OpReadUntilPrompt pattern regex =>
      let r := Channel.read_until_prompt re_search pattern regex ch in
      (ObsText (fst (fst r)), snd r)
  | OpClose => (ObsUnit (fst (Channel.close ch)), snd (Channel.close ch))
  | OpIsOpen => (ObsBool (Channel.isopen ch), ch)
  end.

Fixpoint apply_all (ops : list Op) (ch : Channel.t)
    : list Obs * Channel.t :=
  match ops with
  | [] => ([], ch)
  | op :: rest =>
      let r := apply op ch in
      let rs := apply_all rest (snd r) in
      (fst r :: fst rs, snd rs)
  end.

End Apply.

(** What a closed channel answers: sending and receiving fail with
    [ChannelClosedException], [isopen] is false, closing again is accepted. *)
Definition closed_answer (op : Op) : Obs :=
  match op with
  | OpSend _ => ObsUnit (Err ChannelClosedException)
  | OpRecv => ObsText (Err ChannelClosedException)
  | OpReadUntilPrompt _ _ => ObsText (Err ChannelClosedException)
  | OpClose => ObsUnit (Ok tt)
  | OpIsOpen => ObsBool false
  end.

End ChannelOps.

(** ** Vocabulary of the properties *)

(** No step of a run raised. *)
Definition no_exn (tr : list Step) : Prop :=
  Forall (fun st => step_exn st = None) tr.

(** The first read of the construction: for the autoboot banner as a regular
    expression, or, without autoboot, for the literal steady prompt. *)
Definition first_prompt (k : UBootClass) : string :=
  match autoboot_prompt k with
  | Some ab => ab
  | None => prompt k
  end.

Definition first_is_regex (k : UBootClass) : bool :=
  match autoboot_prompt k with
  | Some _ => true
  | None => false
  end.

Definition first_read (k : UBootClass) (b : Board) (ch : chan_id) : Call :=
  ReadUntilPrompt ch (first_prompt k) (first_is_regex k)
    (Some (UBoot.boot_ev_new b)) None.

(** The last character of a string. *)
Fixpoint last_char (s : string) : option ascii :=
  match s with
  | EmptyString => None
  | String c EmptyString => Some c
  | String _ rest => last_char rest
  end.

(** [c.isspace()] for a character below 128: the blank, the controls 9 to 13
    and the separators 28 to 31. *)
Definition is_space (c : ascii) : bool :=
  Ascii.eqb c " " || shlex.in_range 9 13 c || shlex.in_range 28 31 c.

(** The calls that switch the board's power. *)
Definition is_power (c : Call) : bool :=
  match c with
  | PowerOn | PowerOff => true
  | _ => false
  end.

(** ** A console for the channel selftest *)

Module DemoChannel.
Import PyStr.

(** A [raw_command] that sends the command line and takes the next chunk the
    console delivers as the command's output. *)
Definition raw_command (command : string) : selftest.ChanM string :=
  selftest.cbind (Channel.send (command ++ nl)) (fun _ => Channel.recv).

(** A console that answers the first command, echoes something for the
    second and then hangs up. *)
Definition console : list Channel.Incoming :=
  [Channel.Data ("Hello World" ++ nl); Channel.Data "exit"; Channel.Hangup].

End DemoChannel.

(** ** Texts of arguments *)

(** The text one argument contributes to a command line, as the body of the
    loop of [build_command] computes it: a path is taken relative to
    [/tftpboot] and quoted, a special token gives its expansion as it is, a
    string is quoted. *)
Definition arg_text (a : Arg) : result string :=
  match a with
  | APath p =>
      match relative_to p ["tftpboot"] with
      | Ok rel => Ok (shlex.quote (_local_str rel))
      | Err e => Err e
      end
  | ASpecial t => Ok (resolve_string t)
  | AStr s => Ok (shlex.quote s)
  end.

(** A string that [shlex.quote] leaves alone: not empty, and made of
    letters, digits and the characters [_@%+=:,./-]. *)
Definition plain_word (x : string) : bool :=
  negb (String.eqb x "") && negb (shlex.find_unsafe x).

(** What a step saw of a file: the answer of [path.exists()]. *)
Definition seen (st : Step) : option bool :=
  match st with
  | mkStep c r =>
      match c return reply c -> option bool with
      | PathExists _ => fun b => Some b
      | _ => fun _ => None
      end r
  end.

(** * Properties *)

(** ** Running composed programs *)

Section Run.
Context {S : Type} (h : handler S).

Lemma run_bind {A B} (p : Prog A) (f : A -> Prog B) s :
  run h (bind p f) s =
  match outcome (run h p s) with
  | Ok a =>
      let r := run h (f a) (final (run h p s)) in
      (outcome r, final r, (steps (run h p s) ++ steps r)%list)
  | Err e => (Err e, final (run h p s), steps (run h p s))
  end.
Proof.
  revert s. induction p as [a|e|c k IH]; intros s; simpl.
  - unfold outcome, final, steps. simpl. by destruct (run h (f a) s) as [[] ?].
  - reflexivity.
  - rewrite IH. unfold outcome, final, steps. simpl.
    by destruct (run h (k (h c s).1) (h c s).2) as [[[] ?] ?].
Qed.

Lemma run_try_finally {A} (p : Prog A) (q : Prog unit) s :
  run h (try_finally p q) s =
  let rp := run h p s in
  let rq := run h q (final rp) in
  (match outcome rq with
   | Ok _ => outcome rp
   | Err e => Err e
   end, final rq, (steps rp ++ steps rq)%list).
Proof.
  revert s. induction p as [a|e|c k IH]; intros s; simpl.
  - rewrite run_bind. unfold outcome, final, steps. simpl.
    destruct (run h q s) as [[[?|?] ?] ?]; simpl; rewrite ?app_nil_r; reflexivity.
  - rewrite run_bind. unfold outcome, final, steps. simpl.
    destruct (run h q s) as [[[?|?] ?] ?]; simpl; rewrite ?app_nil_r; reflexivity.
  - rewrite IH. reflexivity.
Qed.

Lemma run_try_except {A} (p : Prog A) (hd : exn -> option (Prog A)) s :
  run h (try_except p hd) s =
  let rp := run h p s in
  match outcome rp with
  | Ok a => rp
  | Err e =>
      match hd e with
      | Some q =>
          let rq := run h q (final rp) in
          (outcome rq, final rq, (steps rp ++ steps rq)%list)
      | None => rp
      end
  end.
Proof.
  revert s. induction p as [a|e|c k IH]; intros s; simpl.
  - reflexivity.
  - destruct (hd e) as [q|]; [|reflexivity].
    unfold outcome, final, steps. simpl. by destruct (run h q s) as [[] ?].
  - rewrite IH. unfold outcome, final, steps. simpl.
    destruct (run h (k (h c s).1) (h c s).2) as [[[a|e] ?] ?]; simpl; [reflexivity|].
    destruct (hd e); reflexivity.
Qed.
End Run.

(** ** Facts about the string operations *)

Section Strings.
Import PyStr.

Lemma find_nl_nil : find nl "" = None.
Proof. reflexivity. Qed.

Lemma find_nl_cons (a : ascii) (s : string) :
  find nl (String a s)
  = if Ascii.eqb a nl_char then Some 0 else option_map S (find nl s).
Proof.
  unfold find at 1; fold find. unfold nl. cbn [String.prefix].
  destruct (ascii_dec nl_char a) as [<-|Hne].
  - rewrite Ascii.eqb_refl. by destruct s.
  - destruct (Ascii.eqb_spec a nl_char); congruence.
Qed.

Lemma find_nl_split (s : string) (i : nat) :
  find nl s = Some i ->
  s = (take i s ++ nl ++ drop (i + 1) s)%string
  /\ contains_char nl_char (take i s) = false.
Proof.
  revert i. induction s as [|a s IH]; intros i.
  - discriminate.
  - rewrite find_nl_cons. destruct (Ascii.eqb_spec a nl_char) as [->|Hne].
    + intros [= <-]. by split.
    + destruct (find nl s) as [j|]; [|discriminate].
      intros [= <-]. destruct (IH j eq_refl) as [Hs Hc]. cbn [take drop Nat.add].
      cbn [contains_char]. rewrite Hc. split.
      * change (String a s = String a (take j s ++ nl ++ drop (j + 1) s)%string).
        by rewrite <- Hs.
      * by destruct (Ascii.eqb_spec a nl_char).
Qed.

Lemma find_nl_none (s : string) :
  find nl s = None -> contains_char nl_char s = false.
Proof.
  induction s as [|a s IH]; [reflexivity|].
  rewrite find_nl_cons. cbn [contains_char].
  destruct (Ascii.eqb a nl_char); [discriminate|].
  destruct (find nl s); [discriminate|]. intros _. by rewrite IH.
Qed.

(** The second element of [text.split("\n", 1)]. *)
Lemma split_1_second (text : string) :
  match nth_error (split_1 nl text) 1 with
  | Some tail =>
      exists first_line, text = (first_line ++ nl ++ tail)%string
                         /\ contains_char nl_char first_line = false
  | None => contains_char nl_char text = false
  end.
Proof.
  unfold split_1. destruct (find nl text) as [i|] eqn:Hf; cbn [nth_error].
  - exists (take i text). by apply find_nl_split.
  - by apply find_nl_none.
Qed.

Lemma contains_char_app c (s1 s2 : string) :
  contains_char c (s1 ++ s2)%string = contains_char c s1 || contains_char c s2.
Proof.
  induction s1 as [|a s1 IH]; [reflexivity|].
  change (contains_char c (String a (s1 ++ s2)%string)
          = contains_char c (String a s1) || contains_char c s2).
  cbn [contains_char]. by rewrite IH, orb_assoc.
Qed.

End Strings.

(** ** Construction of the U-Boot machine *)

Section Init.
Import PyStr.
Context {S : Type} (h : handler S).

Ltac forall_steps :=
  unfold no_exn in *;
  repeat match goal with
         | H : Forall _ (_ :: _) |- _ => inversion H; subst; clear H
         end;
  repeat match goal with
         | H : step_exn _ = None |- _ => cbn in H
         end;
  try discriminate.

(** The whole run of the construction, by cases on what the channel
    answers. *)
Lemma init_run (k : UBootClass) (name : string) (ch : chan_id) (s : S) :
  let b := {| board_name := name; board_channel := Some ch |} in
  let r := run h (UBoot.__init__ k b) s in
  let finish (text : string) : result UBootMachine :=
    match nth_error (split_1 nl text) 1 with
    | Some tail => Ok {| cls := k; board := b; channel := ch; bootlog := tail |}
    | None => Err IndexError
    end in
  match autoboot_prompt k with
  | Some ab =>
      let c1 := ReadUntilPrompt ch ab true (Some (UBoot.boot_ev_new b)) None in
      let c2 := Send ch (autoboot_keys k) in
      let c3 := ReadUntilPrompt ch (prompt k) false None None in
      let s1 := snd (h c1 s) in
      let s2 := snd (h c2 s1) in
      match fst (h c1 s) with
      | (w1, Err e) => r = (Err e, s1, [mkStep c1 (w1, Err e)])
      | (w1, Ok log1) =>
          match fst (h c2 s1) with
          | Err e => r = (Err e, s2, [mkStep c1 (w1, Ok log1); mkStep c2 (Err e)])
          | Ok u =>
              match fst (h c3 s2) with
              | (w3, Err e) =>
                  r = (Err e, snd (h c3 s2),
                       [mkStep c1 (w1, Ok log1); mkStep c2 (Ok u);
                        mkStep c3 (w3, Err e)])
              | (w3, Ok log3) =>
                  r = (finish w1, snd (h c3 s2),
                       [mkStep c1 (w1, Ok log1); mkStep c2 (Ok u);
                        mkStep c3 (w3, Ok log3)])
              end
          end
      end
  | None =>
      let c1 :=
        ReadUntilPrompt ch (prompt k) false (Some (UBoot.boot_ev_new b)) None in
      match fst (h c1 s) with
      | (w1, Err e) => r = (Err e, snd (h c1 s), [mkStep c1 (w1, Err e)])
      | (w1, Ok log1) =>
          r = (finish w1, snd (h c1 s), [mkStep c1 (w1, Ok log1)])
      end
  end.
Proof.
  intros b r finish. subst r finish. unfold UBoot.__init__. cbn [board_channel b].
  destruct (autoboot_prompt k) as [ab|]; cbn zeta;
    unfold channel_api.read_until_prompt, channel_api.send;
    cbn [bind run].
  - destruct (h (ReadUntilPrompt ch ab true (Some (UBoot.boot_ev_new b)) None) s)
      as [[w1 [log1|e1]] s1]; cbn; [|reflexivity].
    destruct (h (Send ch (autoboot_keys k)) s1) as [[u|e2] s2]; cbn;
      [|reflexivity].
    destruct (h (ReadUntilPrompt ch (prompt k) false None None) s2)
      as [[w3 [log3|e3]] s3] eqn:E3; unfold channel_api.regex_default;
      rewrite E3; cbn; [|reflexivity].
    change ("" ++ w1)%string with w1.
    by destruct (split_1 nl w1) as [|x [|y l]].
  - destruct (h (ReadUntilPrompt ch (prompt k) false
                   (Some (UBoot.boot_ev_new b)) None) s)
      as [[w1 [log1|e1]] s1] eqn:E1; unfold channel_api.regex_default;
      rewrite E1; cbn; [|reflexivity].
    change ("" ++ w1)%string with w1.
    by destruct (split_1 nl w1) as [|x [|y l]].
Qed.

(** C1. The channel calls of [__init__]. With an autoboot prompt the calls
    are, in this order, one [read_until_prompt] for the autoboot prompt as a
    regular expression (streamed into the boot event), one [send] of
    [autoboot_keys], and one [read_until_prompt] for the literal steady
    prompt: every run performs a prefix of this sequence, and a run in which
    no call fails, or which returns a machine, performs all of it. Without an
    autoboot prompt the only call is one [read_until_prompt] for the literal
    steady prompt, and nothing is sent. *)
Theorem C1_init_channel_sequence (k : UBootClass) (name : string)
    (ch : chan_id) (s : S) :
  let b := {| board_name := name; board_channel := Some ch |} in
  let r := run h (UBoot.__init__ k b) s in
  match autoboot_prompt k with
  | Some ab =>
      let full :=
        [ReadUntilPrompt ch ab true (Some (UBoot.boot_ev_new b)) None;
         Send ch (autoboot_keys k);
         ReadUntilPrompt ch (prompt k) false None None] in
      calls r `prefix_of` full
      /\ (no_exn (steps r) -> calls r = full)
      /\ (forall m, outcome r = Ok m -> calls r = full)
  | None =>
      calls r
      = [ReadUntilPrompt ch (prompt k) false (Some (UBoot.boot_ev_new b)) None]
  end.
Proof.
  intros b r. pose proof (init_run k name ch s) as H. cbn zeta in H.
  fold b in H. fold r in H. clearbody r.
  destruct (autoboot_prompt k) as [ab|].
  - destruct (h (ReadUntilPrompt ch ab true (Some (UBoot.boot_ev_new b)) None) s).1
      as [w1 [log1|e1]].
    + destruct (h (Send ch (autoboot_keys k)) _).1 as [u|e2].
      * destruct (h (ReadUntilPrompt ch (prompt k) false None None) _).1
          as [w3 [log3|e3]]; subst r; unfold calls, outcome, steps; cbn;
          (split; [by eexists | split; [intros; forall_steps; done | done]]).
      * subst r; unfold calls, outcome, steps; cbn.
        split; [by eexists | split; [intros; forall_steps | done]].
    + subst r; unfold calls, outcome, steps; cbn.
      split; [by eexists | split; [intros; forall_steps | done]].
  - destruct (h _ s).1 as [w1 [log1|e1]]; by subst r.
Qed.

(** C2. The boot log of a constructed machine. If the first read (for the
    autoboot prompt, or for the steady prompt when autoboot is disabled)
    returns the text [captured] and mirrors exactly that text into the boot
    event, and [__init__] returns the machine [m], then [captured] is a first
    line without a newline, the newline, and [bootlog m]: the boot log is the
    captured text with its first line removed. The machine wraps the board's
    own channel. *)
Theorem C2_bootlog_drops_first_line (k : UBootClass) (name : string)
    (ch : chan_id) (s : S) (m : UBootMachine) (captured : string) :
  let b := {| board_name := name; board_channel := Some ch |} in
  fst (h (first_read k b ch) s) = (captured, Ok captured) ->
  outcome (run h (UBoot.__init__ k b) s) = Ok m ->
  (exists first_line,
      captured = (first_line ++ nl ++ bootlog m)%string
      /\ contains_char nl_char first_line = false)
  /\ cls m = k /\ board m = b /\ channel m = ch.
Proof.
  intros b Hfirst Hok. pose proof (init_run k name ch s) as H. cbn zeta in H.
  fold b in H. unfold first_read, first_prompt, first_is_regex in Hfirst.
  pose proof (split_1_second captured) as Hsplit.
  destruct (autoboot_prompt k) as [ab|].
  - rewrite Hfirst in H.
    destruct (h (Send ch (autoboot_keys k)) _).1 as [u|e2];
      [|by rewrite H in Hok].
    destruct (h (ReadUntilPrompt ch (prompt k) false None None) _).1
      as [w3 [log3|e3]]; rewrite H in Hok; [|done].
    unfold outcome in Hok. cbn [fst] in Hok.
    destruct (nth_error (split_1 nl captured) 1); simplify_eq; cbn; auto.
  - rewrite Hfirst in H. rewrite H in Hok. unfold outcome in Hok. cbn [fst] in Hok.
    destruct (nth_error (split_1 nl captured) 1); simplify_eq; cbn; auto.
Qed.

(** C10. [__init__] needs a newline in the boot event. With [written] the
    text the first read put into the boot event: a run that returns a machine
    has a newline in [written]; and if [written] has none and no channel call
    fails, the run ends in [IndexError], raised by the index [[1]] of
    [split("\n", 1)], instead of returning a machine. *)
Theorem C10_init_needs_newline (k : UBootClass) (name : string)
    (ch : chan_id) (s : S) (written : string) (r1 : result string) :
  let b := {| board_name := name; board_channel := Some ch |} in
  let r := run h (UBoot.__init__ k b) s in
  fst (h (first_read k b ch) s) = (written, r1) ->
  (forall m, outcome r = Ok m -> contains_char nl_char written = true)
  /\ (contains_char nl_char written = false -> no_exn (steps r) ->
      outcome r = Err IndexError).
Proof.
  intros b r Hfirst. pose proof (init_run k name ch s) as H. cbn zeta in H.
  fold b in H. fold r in H. clearbody r.
  unfold first_read, first_prompt, first_is_regex in Hfirst.
  pose proof (split_1_second written) as Hsplit.
  assert (Hnl : forall tail,
             nth_error (split_1 nl written) 1 = Some tail ->
             contains_char nl_char written = true).
  { intros tail Ht. rewrite Ht in Hsplit. destruct Hsplit as (fl & -> & _).
    rewrite !contains_char_app. cbn. by rewrite orb_true_r. }
  destruct (autoboot_prompt k) as [ab|]; rewrite Hfirst in H.
  - destruct r1 as [log1|e1].
    + destruct (h (Send ch (autoboot_keys k)) _).1 as [u|e2].
      * destruct (h (ReadUntilPrompt ch (prompt k) false None None) _).1
          as [w3 [log3|e3]]; subst r; unfold outcome, steps; cbn [fst snd].
        -- destruct (nth_error (split_1 nl written) 1) as [tail|] eqn:Ht.
           ++ split; [eauto|]. intros Hc. rewrite (Hnl tail) in Hc; done.
           ++ by split.
        -- split; [done|]. intros; forall_steps.
      * subst r; unfold outcome, steps; cbn [fst snd]. split; [done|]. intros; forall_steps.
    + subst r; unfold outcome, steps; cbn [fst snd]. split; [done|]. intros; forall_steps.
  - destruct r1 as [log1|e1]; subst r; unfold outcome, steps; cbn [fst snd].
    + destruct (nth_error (split_1 nl written) 1) as [tail|] eqn:Ht.
      * split; [eauto|]. intros Hc. rewrite (Hnl tail) in Hc; done.
      * by split.
    + split; [done|]. intros; forall_steps.
Qed.

End Init.

(** C9. On a board without a channel [__init__] raises [RuntimeError]
    at once: no call is made, the state is untouched and no machine is
    returned. *)
Theorem C9_init_without_channel {S : Type} (h : handler S) (s : S)
    (k : UBootClass) (name : string) :
  run h (UBoot.__init__ k {| board_name := name; board_channel := None |}) s
  = (Err (RuntimeError "{board!r} does not support a serial connection!"),
     s, []).
Proof. reflexivity. Qed.

(** ** The interactive session *)

Section Interactive.
Import PyStr.
Context {S : Type} (h : handler S).

Ltac step_in H :=
  repeat (apply elem_of_cons in H as [H|H]);
  try (apply elem_of_nil in H; contradiction);
  try (apply (f_equal step_call) in H; discriminate);
  try (apply (f_equal step_exn) in H; cbn in H; discriminate).

Ltac some_raised H :=
  unfold no_exn in H;
  repeat (let H1 := fresh "Hs" in
          apply Forall_cons in H as [H1 H];
          cbn [step_exn reply_exn result_exn step_call step_reply snd] in H1);
  congruence.

Ltac interactive_done :=
  unfold calls, outcome, steps; cbn [fst snd map step_call];
  split; [by eexists|];
  split; [let Hin := fresh "Hin" in intros ? Hin; step_in Hin; try done|];
  split; [let Hin := fresh "Hin" in intros ? ? Hin; step_in Hin; try done|];
  split; [let H := fresh "H" in intros H; first [reflexivity | some_raised H]|];
  split; [let H := fresh "H" in
          intros H; first [reflexivity | discriminate H]|];
  let e := fresh "e" in
  let H := fresh "H" in
  intros e H; try discriminate H;
  injection H as <-; eexists _, _;
  (split; [reflexivity|]); (split; [reflexivity|]);
  first [left; reflexivity | right; repeat split; reflexivity].

(** C6. The interactive session. [interactive] logs, sends the wake
    sequence (a blank and a newline), attaches the channel to the operator,
    sends the wake sequence again and waits for the literal steady prompt
    with a timeout of one half; every run performs a prefix of these calls
    and the closing log message. If the wait times out the run ends in
    [RuntimeError "Failed to reacquire U-Boot after interactive session!"]
    and the closing message is not logged; if the wait returns, the run
    returns normally after the closing message. The channel is never
    closed. A run in which no call raises, and every run that returns,
    performs the whole sequence, the wait included; and a run that raises
    does so because its last call raised: it raises that exception, or the
    [RuntimeError] when that call was the wait and timed out. *)
Theorem C6_interactive_handoff (self : UBootMachine) (s : S) :
  let ch := channel self in
  let enter := LogMessage "Entering interactive shell (CTRL+D to exit) ..." in
  let wake := Send ch (" " ++ nl) in
  let attach := AttachInteractive ch in
  let wait :=
    ReadUntilPrompt ch (prompt (cls self)) false None (Some (1 # 2)%Q) in
  let leave := LogMessage "Exiting interactive shell ..." in
  let r := run h (UBoot.interactive self) s in
  calls r `prefix_of` [enter; wake; attach; wake; wait; leave]
  /\ (forall written,
        mkStep wait (written, Err TimeoutError) ∈ steps r ->
        outcome r
        = Err (RuntimeError
                 "Failed to reacquire U-Boot after interactive session!")
        /\ calls r = [enter; wake; attach; wake; wait])
  /\ (forall written log,
        mkStep wait (written, Ok log) ∈ steps r ->
        outcome r = Ok tt
        /\ calls r = [enter; wake; attach; wake; wait; leave])
  /\ (forall c, Close c ∉ calls r)
  /\ (no_exn (steps r) -> calls r = [enter; wake; attach; wake; wait; leave])
  /\ (outcome r = Ok tt -> calls r = [enter; wake; attach; wake; wait; leave])
  /\ (forall e,
        outcome r = Err e ->
        exists st e',
          last (steps r) = Some st /\ step_exn st = Some e'
          /\ (e = e'
              \/ (step_call st = wait /\ e' = TimeoutError
                  /\ e = RuntimeError
                           "Failed to reacquire U-Boot after interactive session!"))).
Proof.
  intros ch enter wake attach wait leave r.
  assert (Hnoclose : forall l, l `prefix_of` [enter; wake; attach; wake; wait; leave] ->
                               forall c, Close c ∉ l).
  { intros l [l' Hl] c Hin.
    assert (Close c ∈ [enter; wake; attach; wake; wait; leave]) as Hc
      by (rewrite Hl; apply elem_of_app; auto).
    repeat (apply elem_of_cons in Hc as [Hc|Hc]); try discriminate.
    by apply elem_of_nil in Hc. }
  cut (calls r `prefix_of` [enter; wake; attach; wake; wait; leave]
       /\ (forall written,
             mkStep wait (written, Err TimeoutError) ∈ steps r ->
             outcome r
             = Err (RuntimeError
                      "Failed to reacquire U-Boot after interactive session!")
             /\ calls r = [enter; wake; attach; wake; wait])
       /\ (forall written log,
             mkStep wait (written, Ok log) ∈ steps r ->
             outcome r = Ok tt
             /\ calls r = [enter; wake; attach; wake; wait; leave])
       /\ (no_exn (steps r) ->
           calls r = [enter; wake; attach; wake; wait; leave])
       /\ (outcome r = Ok tt ->
           calls r = [enter; wake; attach; wake; wait; leave])
       /\ (forall e,
             outcome r = Err e ->
             exists st e',
               last (steps r) = Some st /\ step_exn st = Some e'
               /\ (e = e'
                   \/ (step_call st = wait /\ e' = TimeoutError
                       /\ e = RuntimeError
                                "Failed to reacquire U-Boot after interactive session!")))).
  { intros (H1 & H2 & H3 & H4 & H5 & H6). eauto 10. }
  clear Hnoclose. subst r. unfold UBoot.interactive.
  unfold channel_api.log_message, channel_api.send,
    channel_api.attach_interactive, channel_api.read_until_prompt,
    channel_api.regex_default.
  fold ch. cbn [bind run try_except].
  destruct (h (LogMessage _) s) as [[] s1]. cbn [fst snd].
  destruct (h (Send ch _) s1) as [[[]|e2] s2]; cbn [fst snd lift bind run];
    [|interactive_done].
  destruct (h (AttachInteractive ch) s2) as [[[]|e3] s3];
    cbn [fst snd lift bind run]; [|interactive_done].
  destruct (h (Send ch _) s3) as [[[]|e4] s4]; cbn [fst snd lift bind run];
    [|interactive_done].
  destruct (h (ReadUntilPrompt ch _ _ _ _) s4) as [[w5 [log5|e5]] s5];
    cbn [fst snd lift bind run try_except].
  - destruct (h (LogMessage _) s5) as [[] s6]. interactive_done.
  - destruct e5; cbn [bind run]; interactive_done.
Qed.

End Interactive.

(** ** Commands *)

Section Commands.
Import PyStr.
Context {S : Type} (h : handler S).

Lemma str_app_assoc (s1 s2 s3 : string) :
  ((s1 ++ s2) ++ s3 = s1 ++ (s2 ++ s3))%string.
Proof.
  induction s1 as [|a s1 IH]; [reflexivity|].
  change (String a ((s1 ++ s2) ++ s3) = String a (s1 ++ (s2 ++ s3)))%string.
  by rewrite IH.
Qed.

Lemma drop_last_snoc (s : string) (c : ascii) :
  drop_last (s ++ String c EmptyString) = s.
Proof.
  induction s as [|a s IH]; [reflexivity|].
  change (drop_last (String a (s ++ String c EmptyString)) = String a s).
  cbn [drop_last]. rewrite IH. by destruct s.
Qed.

(** [exec] calls the channel once, with the command line it built. *)
Lemma exec_run (self : UBootMachine) (args : list Arg) (s : S) :
  match UBoot.build_command args with
  | Err e => run h (UBoot.exec self args) s = (Err e, s, [])
  | Ok command =>
      let ev := set_prefix "   >> "
                  (UBoot.log_event_command (UBoot.name (board self)) command) in
      let c := RawCommandWithRetval (channel self) command
                 (prompt (cls self)) (Some ev) in
      run h (UBoot.exec self args) s
      = (snd (fst (h c s)), snd (h c s), [mkStep c (fst (h c s))])
  end.
Proof.
  unfold UBoot.exec. destruct (UBoot.build_command args) as [command|e];
    cbn [lift bind]; [|reflexivity].
  unfold channel_api.raw_command_with_retval. cbn [bind run].
  destruct (h _ s) as [[w [[ret out]|e]] s1]; reflexivity.
Qed.

(** C3. [exec0] against [exec], for every argument list. Both make the
    same calls and leave the same state. When [exec] returns code zero,
    [exec0] returns the output of [exec]; when it returns another code,
    [exec0] raises [CommandFailedException] with the machine, the command
    string built by [build_command] (the one that was sent) and the output;
    an error of [exec] passes through unchanged. *)
Theorem C3_exec0_checks_return_code (self : UBootMachine) (args : list Arg)
    (s : S) :
  let re := run h (UBoot.exec self args) s in
  let r0 := run h (UBoot.exec0 self args) s in
  steps r0 = steps re /\ final r0 = final re
  /\ match outcome re with
     | Ok (ret, out) =>
         if (ret =? 0)%Z then outcome r0 = Ok out
         else
           exists command ev,
             UBoot.build_command args = Ok command
             /\ calls re
                = [RawCommandWithRetval (channel self) command
                     (prompt (cls self)) (Some ev)]
             /\ outcome r0
                = Err (CommandFailedException (HostUBoot self) command out)
     | Err e => outcome r0 = Err e
     end.
Proof.
  intros re r0. subst r0. unfold UBoot.exec0. rewrite run_bind. fold re.
  pose proof (exec_run self args s) as He. fold re in He. clearbody re.
  destruct (UBoot.build_command args) as [command|e] eqn:Hb.
  - cbn zeta in He. subst re. unfold outcome, final, steps, calls.
    cbn [fst snd map step_call].
    destruct (h _ s).1 as [w [[ret out]|e]]; cbn [fst snd]; [|done].
    destruct (ret =? 0)%Z; cbn [negb lift bind run fst snd];
      rewrite ?app_nil_r; eauto 10.
  - by subst re.
Qed.

(** C5. [env var] is [exec0 "echo" (Raw "${var}")], whose command string is
    [echo ${var}], with the last character of its output dropped: same
    calls, same final state, errors unchanged. Dropping the last character
    removes exactly one character from a non-empty output and leaves the
    empty output empty. The one call [env] makes is the raw command
    [echo ${var}] on the machine's channel, waiting for its prompt. *)
Theorem C5_env_strips_last_char (self : UBootMachine) (var : string) (s : S) :
  let args := [AStr "echo"; ASpecial (Raw ("${" ++ var ++ "}"))] in
  let r0 := run h (UBoot.exec0 self args) s in
  let r := run h (UBoot.env self var) s in
  UBoot.build_command args = Ok ("echo ${" ++ var ++ "}")%string
  /\ steps r = steps r0 /\ final r = final r0
  /\ outcome r = match outcome r0 with
                 | Ok out => Ok (drop_last out)
                 | Err e => Err e
                 end
  /\ (forall out c, drop_last (out ++ String c EmptyString) = out)
  /\ drop_last "" = ""
  /\ (exists ev,
        calls r
        = [RawCommandWithRetval (channel self) ("echo ${" ++ var ++ "}")
             (prompt (cls self)) (Some ev)]).
Proof.
  intros args r0 r.
  assert (Hb : UBoot.build_command args = Ok ("echo ${" ++ var ++ "}")%string).
  { unfold UBoot.build_command. cbn [args UBoot.build_command_loop].
    change (shlex.quote "echo") with "echo". cbn [resolve_string Raw].
    change ("" ++ ("echo" ++ " "))%string with "echo ".
    by rewrite <- str_app_assoc, drop_last_snoc. }
  assert (Hsteps : steps r = steps r0).
  { subst r. unfold UBoot.env. rewrite run_bind. fold args r0.
    destruct (outcome r0); unfold steps; cbn; by rewrite ?app_nil_r. }
  split; [exact Hb|]. split; [exact Hsteps|].
  split; [|split; [|split; [|split]]].
  - subst r. unfold UBoot.env. rewrite run_bind. fold args r0.
    by destruct (outcome r0).
  - subst r. unfold UBoot.env. rewrite run_bind. fold args r0.
    by destruct (outcome r0).
  - apply drop_last_snoc.
  - reflexivity.
  - unfold calls. change (snd r) with (steps r). rewrite Hsteps.
    subst r0. unfold UBoot.exec0. rewrite run_bind.
    pose proof (exec_run self args s) as He. rewrite Hb in He.
    cbn zeta in He. rewrite He. unfold outcome, final, steps. cbn [fst snd].
    eexists.
    destruct (h _ s).1 as [w [[ret out]|e]]; cbn [fst snd]; [|reflexivity].
    destruct (ret =? 0)%Z; cbn [negb]; [reflexivity|].
    rewrite Hb. reflexivity.
Qed.

End Commands.

(** ** Quoting and the shell's word splitting *)

Section Quoting.
Import PyStr.

Lemma str_app_nil_r (s : string) : (s ++ "")%string = s.
Proof.
  induction s as [|a s IH]; [reflexivity|].
  change (String a (s ++ "")%string = String a s). by rewrite IH.
Qed.

Lemma str_app_cons (a : ascii) (s t : string) :
  (String a s ++ t)%string = String a (s ++ t)%string.
Proof. reflexivity. Qed.

Lemma last_char_app (s t : string) :
  t <> EmptyString -> last_char (s ++ t) = last_char t.
Proof.
  intros Ht. induction s as [|a s IH]; [reflexivity|].
  rewrite str_app_cons. cbn [last_char]. rewrite IH.
  destruct (s ++ t)%string eqn:E; [|reflexivity].
  destruct s; [exfalso; apply Ht; exact E|discriminate].
Qed.

Lemma drop_last_app (s t : string) :
  t <> EmptyString -> drop_last (s ++ t) = (s ++ drop_last t)%string.
Proof.
  intros Ht. induction s as [|a s IH]; [reflexivity|].
  rewrite !str_app_cons. cbn [drop_last]. rewrite IH.
  destruct (s ++ t)%string eqn:E; [|reflexivity].
  destruct s; [exfalso; apply Ht; exact E|discriminate].
Qed.

(** What [is_safe] excludes. *)
Lemma is_safe_plain (c : ascii) :
  shlex.is_safe c = true ->
  is_space c = false /\ sh.is_blank c = false /\ sh.is_active c = false
  /\ Ascii.eqb c sq_char = false /\ Ascii.eqb c dq_char = false
  /\ Ascii.eqb c "\" = false.
Proof.
  destruct c as [[] [] [] [] [] [] [] []]; vm_compute; intros H;
    try discriminate H; repeat split; reflexivity.
Qed.

(** Unquoted safe characters are taken as they are. *)
Lemma split_safe (a : string) :
  shlex.find_unsafe a = false ->
  forall (w tail : string),
    sh.split_loop sh.Unquoted (Some w) (a ++ tail)
    = sh.split_loop sh.Unquoted (Some (w ++ a)%string) tail.
Proof.
  induction a as [|c a IH]; intros Hsafe w tail.
  - by rewrite str_app_nil_r.
  - cbn [shlex.find_unsafe] in Hsafe. apply orb_false_elim in Hsafe as [Hc Ha].
    apply negb_false_iff in Hc.
    destruct (is_safe_plain c Hc) as (_ & Hb & Hact & Hsq & Hdq & Hbs).
    rewrite str_app_cons. cbn [sh.split_loop].
    rewrite Hb, Hsq, Hdq, Hbs, Hact. cbn [sh.push].
    rewrite (IH Ha). by rewrite str_app_assoc.
Qed.

(** Inside single quotes, the text that [quote] makes of [a] reads as [a]. *)
Lemma split_single_quoted (a : string) :
  forall (w tail : string),
    sh.split_loop sh.InSingle (Some w)
      (replace_char sq_char shlex.quote_escape a ++ String sq_char tail)
    = sh.split_loop sh.Unquoted (Some (w ++ a)%string) tail.
Proof.
  induction a as [|c a IH]; intros w tail.
  - rewrite str_app_nil_r. reflexivity.
  - cbn [replace_char]. destruct (Ascii.eqb_spec c sq_char) as [->|Hne].
    + rewrite str_app_assoc.
      change (sh.split_loop sh.InSingle (Some w)
                (shlex.quote_escape
                 ++ (replace_char sq_char shlex.quote_escape a
                     ++ String sq_char tail)))
        with (sh.split_loop sh.InSingle
                (Some (w ++ String sq_char EmptyString)%string)
                (replace_char sq_char shlex.quote_escape a
                 ++ String sq_char tail)).
      rewrite IH. by rewrite str_app_assoc.
    + rewrite str_app_cons. cbn [sh.split_loop].
      destruct (Ascii.eqb_spec c sq_char); [done|]. cbn [sh.push].
      rewrite IH. by rewrite str_app_assoc.
Qed.

(** One quoted argument reads as one word with the argument's text. *)
Lemma split_quote (x tail : string) :
  sh.split_loop sh.Unquoted None (shlex.quote x ++ tail)
  = sh.split_loop sh.Unquoted (Some x) tail.
Proof.
  destruct x as [|c x]; [reflexivity|].
  unfold shlex.quote. destruct (shlex.find_unsafe (String c x)) eqn:Hu.
  - change (sh.split_loop sh.Unquoted None
              (("'" ++ replace_char sq_char shlex.quote_escape (String c x)
                ++ "'") ++ tail))
      with (sh.split_loop sh.InSingle (Some EmptyString)
              ((replace_char sq_char shlex.quote_escape (String c x)
                ++ String sq_char EmptyString) ++ tail)).
    rewrite str_app_assoc. change (String sq_char "" ++ tail)%string
      with (String sq_char tail).
    by rewrite split_single_quoted.
  - pose proof Hu as Hu'. cbn [shlex.find_unsafe] in Hu'.
    apply orb_false_elim in Hu' as [Hc Hx]. apply negb_false_iff in Hc.
    destruct (is_safe_plain c Hc) as (_ & Hb & Hact & Hsq & Hdq & Hbs).
    rewrite str_app_cons. cbn [sh.split_loop].
    rewrite Hb, Hsq, Hdq, Hbs, Hact. cbn [sh.push].
    by rewrite (split_safe x Hx).
Qed.

Lemma split_join_quote (l : list string) :
  sh.split (join " " (map shlex.quote l)) = Some l.
Proof.
  unfold sh.split. induction l as [|x [|y l] IH]; [reflexivity| |].
  - cbn [map join]. rewrite <- (str_app_nil_r (shlex.quote x)).
    by rewrite split_quote.
  - change (join " " (map shlex.quote (x :: y :: l)))
      with (shlex.quote x ++ " " ++ join " " (map shlex.quote (y :: l)))%string.
    rewrite split_quote.
    change (sh.split_loop sh.Unquoted (Some x)
              (" " ++ join " " (map shlex.quote (y :: l))))
      with (sh.emit (Some x)
              (sh.split_loop sh.Unquoted None
                 (join " " (map shlex.quote (y :: l))))).
    by rewrite IH.
Qed.

(** The loop of [build_command] on plain strings. *)
Lemma build_command_loop_plain (l : list string) (acc : string) :
  UBoot.build_command_loop acc (map AStr l)
  = Ok (acc ++ match l with
               | [] => ""
               | _ => join " " (map shlex.quote l) ++ " "
               end)%string.
Proof.
  revert acc. induction l as [|x l IH]; intros acc.
  - cbn. by rewrite str_app_nil_r.
  - cbn [map UBoot.build_command_loop]. rewrite IH. f_equal.
    destruct l as [|y l].
    + rewrite str_app_nil_r. reflexivity.
    + cbn [map join]. by rewrite !str_app_assoc.
Qed.

Lemma last_char_safe (x : string) (c : ascii) :
  shlex.find_unsafe x = false -> last_char x = Some c ->
  shlex.is_safe c = true.
Proof.
  induction x as [|a x IH]; [discriminate|].
  cbn [shlex.find_unsafe last_char]. intros Hu Hl.
  apply orb_false_elim in Hu as [Ha Hx]. apply negb_false_iff in Ha.
  destruct x; [by simplify_eq|]. by apply IH.
Qed.

Lemma last_char_quote (x : string) :
  exists c, last_char (shlex.quote x) = Some c /\ is_space c = false.
Proof.
  destruct x as [|a x]; [by exists sq_char|].
  unfold shlex.quote. destruct (shlex.find_unsafe (String a x)) eqn:Hu.
  - exists sq_char. split; [|reflexivity].
    rewrite <- str_app_assoc, last_char_app by discriminate. reflexivity.
  - destruct (last_char (String a x)) as [c|] eqn:Hl.
    + exists c. split; [done|].
      by destruct (is_safe_plain c (last_char_safe _ _ Hu Hl)).
    + exfalso. clear Hu. revert a Hl.
      induction x as [|b x IH]; intros a; [discriminate|]. apply IH.
Qed.

Lemma last_char_join_quote (l : list string) (c : ascii) :
  last_char (join " " (map shlex.quote l)) = Some c -> is_space c = false.
Proof.
  revert c. induction l as [|x [|y l] IH]; intros c; [discriminate| |].
  - cbn [map join]. destruct (last_char_quote x) as (c' & -> & Hc').
    by intros [= <-].
  - change (join " " (map shlex.quote (x :: y :: l)))
      with (shlex.quote x
            ++ String " " (join " " (map shlex.quote (y :: l))))%string.
    rewrite last_char_app by discriminate. cbn [last_char].
    destruct (join " " (map shlex.quote (y :: l))) eqn:E; [|apply IH].
    exfalso. destruct (last_char_quote y) as (c' & Hq & _).
    destruct l; cbn [map join] in E; [by rewrite E in Hq|].
    destruct (shlex.quote y); [discriminate Hq|discriminate E].
Qed.

(** C4. Quoting round trip. For every list of plain strings,
    [build_command] returns the [shlex.quote]d arguments joined by single
    spaces; the result does not end in white space; and splitting it into
    words the way a POSIX shell does gives back the argument list. *)
Theorem C4_quoting_round_trip (l : list string) :
  let command := join " " (map shlex.quote l) in
  UBoot.build_command (map AStr l) = Ok command
  /\ (forall c, last_char command = Some c -> is_space c = false)
  /\ sh.split command = Some l.
Proof.
  intros command. split; [|split].
  - unfold UBoot.build_command. rewrite build_command_loop_plain.
    subst command. destruct l as [|x l]; [reflexivity|].
    f_equal. change ("" ++ ?s)%string with s. apply drop_last_snoc.
  - apply last_char_join_quote.
  - apply split_join_quote.
Qed.

End Quoting.

(** ** The board scope *)

Section Scope.
Context {S : Type} (h : handler S).

Lemma run_lift {A : Type} (x : result A) (s : S) :
  run h (lift x) s = (x, s, []).
Proof. by destruct x. Qed.

(** C7. The power calls of a board scope. When power-on succeeds and the
    body makes no power call of its own, the power calls of the whole run
    are exactly [PowerOn] then [PowerOff], whether the body returns or
    raises. If the connection is made the calls are power-on, connect, the
    body's calls, close of the channel, power-off; if connecting fails,
    power-off still follows. *)
Theorem C7_power_lifecycle {A : Type} (name : string)
    (body : Board -> Prog A) (s : S) :
  let r := run h (BoardScope.with_board name body) s in
  let s1 := snd (h PowerOn s) in
  let s2 := snd (h Connect s1) in
  fst (h PowerOn s) = Ok tt ->
  (forall b s', List.filter is_power (calls (run h (body b) s')) = []) ->
  List.filter is_power (calls r) = [PowerOn; PowerOff]
  /\ match fst (h Connect s1) with
     | Ok ch =>
         let rb :=
           run h (body {| board_name := name; board_channel := Some ch |}) s2 in
         calls r = [PowerOn; Connect] ++ calls rb ++ [Close ch; PowerOff]
     | Err e => calls r = [PowerOn; Connect; PowerOff]
     end.
Proof.
  intros r s1 s2 Hon Hbody.
  assert (Hr : match fst (h Connect s1) with
     | Ok ch =>
         let rb :=
           run h (body {| board_name := name; board_channel := Some ch |}) s2 in
         calls r = [PowerOn; Connect] ++ calls rb ++ [Close ch; PowerOff]
     | Err e => calls r = [PowerOn; Connect; PowerOff]
     end).
  { subst r s1 s2. unfold BoardScope.with_board, BoardScope.poweron,
      BoardScope.poweroff, BoardScope.connect, channel_api.close.
    cbn [bind run]. rewrite Hon. cbn [lift bind].
    rewrite run_try_finally. cbn [bind run].
    destruct (h Connect (h PowerOn s).2) as [[ch|e] s2]; cbn [fst snd lift bind].
    - rewrite run_try_finally. unfold calls, steps, final. cbn [fst snd run].
      rewrite !run_lift. cbn [fst snd app]. rewrite <- app_assoc. cbn [app].
      rewrite !map_cons, map_app. reflexivity.
    - unfold calls, steps, final. cbn [fst snd run]. rewrite !run_lift.
      reflexivity. }
  split; [|exact Hr].
  destruct (h Connect s1).1 as [ch|e]; rewrite Hr; [|reflexivity].
  cbn zeta. cbn [app List.filter is_power]. rewrite List.filter_app, Hbody.
  reflexivity.
Qed.

End Scope.

(** ** The power selftest on the lab host of the examples *)

Section PowerSelftest.
Import TestBoard.
Variable re_search : string -> string -> option nat.

Lemma run_Do_intro {S A : Type} (h : handler S) (c : Call)
    (k : reply c -> Prog A) (s s' : S) (o : result A) (tr : list Step) :
  run h (k (fst (h c s))) (snd (h c s)) = (o, s', tr) ->
  run h (Do c k) s = (o, s', mkStep c (fst (h c s)) :: tr).
Proof. intros H. cbn [run]. by rewrite H. Qed.

Ltac world_simpl :=
  unfold on_chan, poweron, poweroff, discard, Demo.lab_exec0;
  cbn [bind handle fst snd lift assert negb try_finally try_except
       connect Channel.close
       files workdir chans set_files set_chans add_log
       String.eqb Ascii.eqb Bool.eqb];
  try match goal with
      | q := power_path ?wd |- _ => progress change (power_path wd) with q
      end;
  try match goal with
      | |- context [bool_decide (?p ∈ {[?p]} ∪ ?X)] =>
          rewrite (bool_decide_eq_true_2 (p ∈ {[p]} ∪ X))
            by (apply elem_of_union_l, elem_of_singleton; reflexivity)
      | |- context [bool_decide (?p ∈ ?X ∖ {[?p]})] =>
          rewrite (bool_decide_eq_false_2 (p ∈ X ∖ {[p]}))
            by (rewrite elem_of_difference, elem_of_singleton; tauto)
      | H : ?p ∉ ?X |- context [bool_decide (?p ∈ ?X)] =>
          rewrite (bool_decide_eq_false_2 (p ∈ X)) by exact H
      | H : ?p ∈ ?X |- context [bool_decide (?p ∈ ?X)] =>
          rewrite (bool_decide_eq_true_2 (p ∈ X)) by exact H
      | |- context [(<[?c := ?x]> ?m) !! ?c] => rewrite (lookup_insert_eq m c x)
      end.

Ltac world_run :=
  repeat (repeat (progress world_simpl);
          first [ eapply run_Do_intro | reflexivity ]).

(** On the lab host of the examples, where [touch] and [rm] do their work
    and a console is always there to connect to, [selftest_board_power]
    passes whether or not a power file was left behind. *)
Lemma selftest_board_power_passes (w : World) :
  let r := run (handle re_search Demo.lab_exec0)
             (selftest.selftest_board_power (workdir w)) w in
  outcome r = Ok tt
  /\ List.filter is_power (calls r) = [PowerOn; PowerOff; PowerOn; PowerOff].
Proof.
  intros r.
  assert (exists w' tr,
             r = (Ok tt, w', tr)
             /\ List.filter is_power (List.map step_call tr)
                = [PowerOn; PowerOff; PowerOn; PowerOff]) as (w' & tr & -> & Htr);
    [|by split].
  subst r.
  unfold selftest.selftest_board_power, selftest.path_exists,
    BoardScope.with_board, BoardScope.poweron, BoardScope.poweroff,
    BoardScope.connect, channel_api.close, channel_api.log_message.
  set (p := power_path (workdir w)).
  destruct (decide (p ∈ files w)) as [E|E]; do 2 eexists;
    (split; [world_run | reflexivity]).
Qed.

End PowerSelftest.

(** ** The channel *)

Section ChannelFacts.
Import ChannelOps.
Variable re_search : string -> string -> option nat.

Lemma apply_closed (op : Op) (ch : Channel.t) :
  Channel.closed ch = true ->
  apply re_search op ch = (closed_answer op, snd (apply re_search op ch))
  /\ Channel.closed (snd (apply re_search op ch)) = true.
Proof.
  intros Hc. destruct op; cbn [apply closed_answer fst snd];
    unfold Channel.send, Channel.recv, Channel.read_until_prompt,
      Channel.isopen, Channel.close;
    cbn [Channel.read_loop]; unfold Channel.recv; rewrite ?Hc; by cbn.
Qed.

(** C8. A closed channel stays closed. [close] closes the channel; a [recv]
    that fails with [ChannelClosedException] leaves it closed, and [recv]
    fails so when the peer has hung up on an open channel with an empty
    buffer. On a closed channel every sequence of operations answers
    [ChannelClosedException] to each [send], [recv] and [read_until_prompt],
    [false] to each [isopen], and leaves the channel closed. *)
Theorem C8_closed_channel_is_sticky :
  (forall ch, Channel.closed (snd (Channel.close ch)) = true)
  /\ (forall ch,
        fst (Channel.recv ch) = Err ChannelClosedException ->
        Channel.closed (snd (Channel.recv ch)) = true)
  /\ (forall ch w,
        Channel.closed ch = false -> Channel.buffer ch = "" ->
        Channel.wire ch = Channel.Hangup :: w
        \/ Channel.wire ch = Channel.Data "" :: w ->
        fst (Channel.recv ch) = Err ChannelClosedException)
  /\ (forall ch ops,
        Channel.closed ch = true ->
        fst (apply_all re_search ops ch) = List.map closed_answer ops
        /\ Channel.closed (snd (apply_all re_search ops ch)) = true).
Proof.
  split; [reflexivity|]. split; [|split].
  - intros [c b w snt]. unfold Channel.recv. cbn.
    destruct c; [done|]. destruct b; [|done].
    destruct w as [|[[|? ?]| |] w]; cbn; done.
  - intros [c b w snt] w' Hc Hb [Hw|Hw]; cbn in *; subst; reflexivity.
  - intros ch ops. revert ch. induction ops as [|op ops IH]; intros ch Hc.
    + by split.
    + cbn [apply_all List.map fst snd].
      destruct (apply_closed op ch Hc) as [Ha Hc'].
      destruct (IH _ Hc') as [IH1 IH2]. rewrite IH1, IH2.
      split; [|reflexivity]. by rewrite Ha.
Qed.

End ChannelFacts.

(** ** The properties at work on the dummy board *)

Lemma C1_init_channel_sequence_witness :
  outcome (run Demo.handle (UBoot.__init__ TestBoardUBoot Demo.test_board)
             (Demo.world Demo.console_autoboot))
  = Ok Demo.machine
  /\ calls (run Demo.handle (UBoot.__init__ TestBoardUBoot Demo.test_board)
              (Demo.world Demo.console_autoboot))
     = [ReadUntilPrompt 0 "Autoboot: " true
          (Some (UBoot.boot_ev_new Demo.test_board)) None;
        Send 0 PyStr.nl;
        ReadUntilPrompt 0 "Test-U-Boot> " false None None].
Proof.
  split; [vm_compute; reflexivity|].
  apply (proj2 (proj2 (C1_init_channel_sequence Demo.handle TestBoardUBoot
                         TestBoard.name 0%nat
                         (Demo.world Demo.console_autoboot)))
           Demo.machine).
  vm_compute; reflexivity.
Defined.

Lemma C2_bootlog_drops_first_line_witness :
  fst (Demo.handle (first_read TestBoardUBoot Demo.test_board 0%nat)
         (Demo.world Demo.console_autoboot))
  = (("U-Boot 2020.01" ++ PyStr.nl ++ "Autoboot: ")%string,
     Ok ("U-Boot 2020.01" ++ PyStr.nl ++ "Autoboot: ")%string)
  /\ outcome (run Demo.handle (UBoot.__init__ TestBoardUBoot Demo.test_board)
                (Demo.world Demo.console_autoboot))
     = Ok Demo.machine
  /\ ((exists first_line,
          ("U-Boot 2020.01" ++ PyStr.nl ++ "Autoboot: ")%string
          = (first_line ++ PyStr.nl ++ bootlog Demo.machine)%string
          /\ PyStr.contains_char PyStr.nl_char first_line = false)
      /\ cls Demo.machine = TestBoardUBoot
      /\ board Demo.machine = Demo.test_board
      /\ channel Demo.machine = 0%nat).
Proof.
  split; [vm_compute; reflexivity|]. split; [vm_compute; reflexivity|].
  apply (C2_bootlog_drops_first_line Demo.handle TestBoardUBoot TestBoard.name
           0%nat (Demo.world Demo.console_autoboot) Demo.machine
           ("U-Boot 2020.01" ++ PyStr.nl ++ "Autoboot: ")%string);
    vm_compute; reflexivity.
Defined.

Lemma C10_init_needs_newline_witness :
  fst (Demo.handle (first_read TestBoardUBoot Demo.test_board 0%nat)
         (Demo.world Demo.console_one_line))
  = ("Autoboot: ", Ok "Autoboot: ")
  /\ PyStr.contains_char PyStr.nl_char "Autoboot: " = false
  /\ no_exn (steps (run Demo.handle
                      (UBoot.__init__ TestBoardUBoot Demo.test_board)
                      (Demo.world Demo.console_one_line)))
  /\ outcome (run Demo.handle (UBoot.__init__ TestBoardUBoot Demo.test_board)
                (Demo.world Demo.console_one_line))
     = Err IndexError.
Proof.
  assert (Hfirst :
            fst (Demo.handle (first_read TestBoardUBoot Demo.test_board 0%nat)
                   (Demo.world Demo.console_one_line))
            = ("Autoboot: ", Ok "Autoboot: ")) by (vm_compute; reflexivity).
  assert (Hsteps :
            no_exn (steps (run Demo.handle
                             (UBoot.__init__ TestBoardUBoot Demo.test_board)
                             (Demo.world Demo.console_one_line))))
    by (vm_compute; repeat constructor).
  split; [exact Hfirst|]. split; [reflexivity|]. split; [exact Hsteps|].
  exact (proj2 (C10_init_needs_newline Demo.handle TestBoardUBoot
                  TestBoard.name 0%nat (Demo.world Demo.console_one_line)
                  "Autoboot: " (Ok "Autoboot: ") Hfirst)
           eq_refl Hsteps).
Defined.

Lemma C6_interactive_handoff_witness :
  mkStep (ReadUntilPrompt 0 "Test-U-Boot> " false None (Some (1 # 2)%Q))
    ("", Err TimeoutError)
  ∈ steps (run Demo.handle (UBoot.interactive Demo.machine)
             (Demo.world Demo.console_silent))
  /\ outcome (run Demo.handle (UBoot.interactive Demo.machine)
                (Demo.world Demo.console_silent))
     = Err (RuntimeError
              "Failed to reacquire U-Boot after interactive session!").
Proof.
  assert (Hin :
            mkStep (ReadUntilPrompt 0 "Test-U-Boot> " false None
                      (Some (1 # 2)%Q))
              ("", Err TimeoutError)
            ∈ steps (run Demo.handle (UBoot.interactive Demo.machine)
                       (Demo.world Demo.console_silent))).
  { vm_compute. do 4 apply list_elem_of_further. apply list_elem_of_here. }
  split; [exact Hin|].
  exact (proj1 (proj1 (proj2 (C6_interactive_handoff Demo.handle Demo.machine
                                (Demo.world Demo.console_silent)))
                  "" Hin)).
Defined.

Lemma C7_power_lifecycle_witness :
  fst (Demo.handle PowerOn (Demo.world Demo.console_autoboot)) = Ok tt
  /\ (forall b s',
        List.filter is_power
          (calls (run Demo.handle
                    ((fun _ : Board =>
                        bind (selftest.path_exists
                                (TestBoard.power_path ["tmp"]))
                          (fun e => assert e "")) b) s'))
        = [])
  /\ List.filter is_power
       (calls (run Demo.handle
                 (BoardScope.with_board TestBoard.name
                    (fun _ : Board =>
                       bind (selftest.path_exists
                               (TestBoard.power_path ["tmp"]))
                         (fun e => assert e "")))
                 (Demo.world Demo.console_autoboot)))
     = [PowerOn; PowerOff].
Proof.
  assert (Hbody : forall (b : Board) s',
        List.filter is_power
          (calls (run Demo.handle
                    ((fun _ : Board =>
                        bind (selftest.path_exists
                                (TestBoard.power_path ["tmp"]))
                          (fun e => assert e "")) b) s'))
        = []).
  { intros b s'. unfold calls, selftest.path_exists. cbn [bind run snd map].
    destruct (fst (Demo.handle _ s')); reflexivity. }
  split; [vm_compute; reflexivity|]. split; [exact Hbody|].
  exact (proj1 (C7_power_lifecycle Demo.handle TestBoard.name _
                  (Demo.world Demo.console_autoboot)
                  ltac:(vm_compute; reflexivity) Hbody)).
Defined.

Lemma C8_closed_channel_is_sticky_witness :
  Channel.closed
    (snd (Channel.close (Demo.open_channel Demo.console_autoboot))) = true
  /\ fst (ChannelOps.apply_all Channel.re_literal
            [ChannelOps.OpSend PyStr.nl; ChannelOps.OpRecv;
             ChannelOps.OpIsOpen; ChannelOps.OpSend "x"; ChannelOps.OpRecv]
            (snd (Channel.close (Demo.open_channel Demo.console_autoboot))))
     = [ChannelOps.ObsUnit (Err ChannelClosedException);
        ChannelOps.ObsText (Err ChannelClosedException);
        ChannelOps.ObsBool false;
        ChannelOps.ObsUnit (Err ChannelClosedException);
        ChannelOps.ObsText (Err ChannelClosedException)].
Proof.
  split; [reflexivity|].
  exact (proj1 (proj2 (proj2 (proj2
           (C8_closed_channel_is_sticky Channel.re_literal)))
           (snd (Channel.close (Demo.open_channel Demo.console_autoboot)))
           [ChannelOps.OpSend PyStr.nl; ChannelOps.OpRecv;
            ChannelOps.OpIsOpen; ChannelOps.OpSend "x"; ChannelOps.OpRecv]
           eq_refl)).
Defined.

Lemma C4_quoting_round_trip_witness :
  last_char
    (PyStr.join " " (List.map shlex.quote ["echo"; "Hello World"; "$? !#"]))
  = Some PyStr.sq_char
  /\ is_space PyStr.sq_char = false
  /\ sh.split "echo 'Hello World' '$? !#'"
     = Some ["echo"; "Hello World"; "$? !#"].
Proof.
  split; [reflexivity|]. split.
  - exact (proj1 (proj2 (C4_quoting_round_trip
                           ["echo"; "Hello World"; "$? !#"]))
             PyStr.sq_char eq_refl).
  - exact (proj2 (proj2 (C4_quoting_round_trip
                           ["echo"; "Hello World"; "$? !#"]))).
Defined.

Lemma C3_exec0_checks_return_code_witness :
  outcome (run Demo.handle (UBoot.exec Demo.machine [AStr "false"])
             (Demo.world Demo.console_autoboot))
  = Ok (1%Z, "")
  /\ outcome (run Demo.handle (UBoot.exec0 Demo.machine [AStr "false"])
                (Demo.world Demo.console_autoboot))
     = Err (CommandFailedException (HostUBoot Demo.machine) "false" "").
Proof.
  split; [vm_compute; reflexivity|].
  pose proof (proj2 (proj2 (C3_exec0_checks_return_code Demo.handle
                              Demo.machine [AStr "false"]
                              (Demo.world Demo.console_autoboot)))) as H.
  change (outcome (run Demo.handle (UBoot.exec Demo.machine [AStr "false"])
                     (Demo.world Demo.console_autoboot)))
    with (@Ok (Z * string) (1%Z, "")) in H.
  cbn iota beta in H. destruct H as (command & ev & Hb & _ & ->).
  change (UBoot.build_command [AStr "false"]) with (@Ok string "false") in Hb.
  by injection Hb as <-.
Defined.

(** ** The channel selftest *)

Section MachineChannelSelftest.
Import PyStr.

Variable raw_command : string -> selftest.ChanM string.

(** X11. [selftest_machine_channel] passes when the first command answers
    as the test expects on a channel that is open afterwards and, for a
    remote close, nothing is left in the channel's buffer and the console
    delivers one more chunk, which is not empty, before it hangs up. *)
Lemma selftest_machine_channel_passes (remote_close : bool)
    (ch ch1 : Channel.t) (echo : string) (w : list Channel.Incoming) :
  raw_command "echo Hello World" ch = (Ok ("Hello World" ++ nl)%string, ch1) ->
  Channel.closed ch1 = false ->
  (remote_close = true ->
   Channel.buffer ch1 = ""
   /\ Channel.wire ch1 = Channel.Data echo :: Channel.Hangup :: w
   /\ echo <> "") ->
  fst (selftest.selftest_machine_channel raw_command remote_close ch) = Ok tt.
Proof.
  intros Hraw Hopen Hremote.
  unfold selftest.selftest_machine_channel, selftest.cbind at 1. rewrite Hraw.
  destruct ch1 as [c b wi snt]. cbn in Hopen. subst c.
  destruct remote_close.
  - destruct (Hremote eq_refl) as (Hb & Hw & He). cbn in Hb, Hw. subst b wi.
    destruct echo as [|a echo]; [done|]. reflexivity.
  - reflexivity.
Qed.

End MachineChannelSelftest.

(** ** Construction without autoboot on the dummy board *)

(** With autoboot disabled the only read is the one for the steady prompt, it
    is the one streamed into the boot event, and the boot log runs up to and
    including that prompt. *)
Example init_without_autoboot :
  let r := run Demo.handle (UBoot.__init__ TestBoardUBootNoAB Demo.test_board)
             (Demo.world Demo.console_autoboot) in
  outcome r
  = Ok {| cls := TestBoardUBootNoAB; board := Demo.test_board;
          channel := 0%nat;
          bootlog := "Autoboot: " ++ PyStr.nl ++ "Test-U-Boot> " |}
  /\ calls r
     = [ReadUntilPrompt 0 "Test-U-Boot> " false
          (Some (UBoot.boot_ev_new Demo.test_board)) None].
Proof. split; vm_compute; reflexivity. Qed.

(** ** Command lines for every kind of argument *)

Section CommandLines.
Import PyStr.

Lemma relative_to_error (p root : Path) (e : exn) :
  relative_to p root = Err e -> e = ValueError.
Proof.
  revert p. induction root as [|r root IH]; intros [|x p]; cbn [relative_to];
    try discriminate; [by intros [= <-]|].
  destruct (String.eqb r x); [apply IH|by intros [= <-]].
Qed.

Lemma relative_to_tftpboot (p : Path) :
  head p <> Some "tftpboot" -> relative_to p ["tftpboot"] = Err ValueError.
Proof.
  destruct p as [|x p]; [reflexivity|]. cbn [head relative_to]. intros Hne.
  destruct (String.eqb_spec "tftpboot" x) as [<-|_]; [done|reflexivity].
Qed.

(** The texts of the arguments, each followed by a blank. *)
Lemma build_command_loop_texts (args : list Arg) (texts : list string)
    (acc : string) :
  Forall2 (fun a t => arg_text a = Ok t) args texts ->
  UBoot.build_command_loop acc args
  = Ok (acc ++ match texts with
               | [] => ""
               | _ => join " " texts ++ " "
               end)%string.
Proof.
  intros H. revert acc. induction H as [|a t args texts Ha H IH]; intros acc.
  - cbn. by rewrite str_app_nil_r.
  - assert (UBoot.build_command_loop acc (a :: args)
            = UBoot.build_command_loop (acc ++ (t ++ " ")) args) as ->.
    { destruct a as [x|sp|p]; cbn [arg_text] in Ha; cbn [UBoot.build_command_loop].
      - by injection Ha as <-.
      - by injection Ha as <-.
      - destruct (relative_to p ["tftpboot"]); [|discriminate].
        by injection Ha as <-. }
    rewrite IH. f_equal. destruct texts as [|y texts].
    + rewrite str_app_nil_r. reflexivity.
    + cbn [join]. by rewrite !str_app_assoc.
Qed.

Lemma build_command_loop_error (args : list Arg) (p : Path) (acc : string) :
  APath p ∈ args -> head p <> Some "tftpboot" ->
  UBoot.build_command_loop acc args = Err ValueError.
Proof.
  intros Hin Hp. revert acc. induction args as [|a args IH]; intros acc.
  - by apply elem_of_nil in Hin.
  - apply elem_of_cons in Hin as [<-|Hin].
    + cbn [UBoot.build_command_loop]. by rewrite relative_to_tftpboot.
    + destruct a as [x|sp|q]; cbn [UBoot.build_command_loop]; auto.
      destruct (relative_to q ["tftpboot"]) eqn:E; [auto|].
      by rewrite (relative_to_error _ _ _ E).
Qed.

(** X1. The command line for arguments of every kind. When every argument
    has a text (a string quoted, a special token's expansion as it is, a path
    below [/tftpboot] made relative to it and quoted), [build_command]
    returns these texts joined by single blanks; for no argument at all it
    returns the empty string.  A special token is never quoted. *)
Theorem build_command_joins_texts (args : list Arg) (texts : list string) :
  Forall2 (fun a t => arg_text a = Ok t) args texts ->
  UBoot.build_command args = Ok (join " " texts).
Proof.
  intros H. unfold UBoot.build_command.
  rewrite (build_command_loop_texts args texts "" H).
  destruct texts as [|t texts]; [reflexivity|].
  f_equal. change ("" ++ ?s)%string with s. apply drop_last_snoc.
Qed.

Lemma quote_plain_word (x : string) :
  plain_word x = true -> shlex.quote x = x.
Proof.
  unfold plain_word, shlex.quote. destruct x as [|c x]; [discriminate|].
  cbn [String.eqb negb andb]. by destruct (shlex.find_unsafe (String c x)).
Qed.

(** X2. Words that need no quoting are sent as they are: for non-empty
    strings made of letters, digits and [_@%+=:,./-] the command line is the
    strings joined by single blanks. *)
Theorem build_command_plain_words (l : list string) :
  Forall (fun x => plain_word x = true) l ->
  UBoot.build_command (map AStr l) = Ok (join " " l).
Proof.
  intros H. apply build_command_joins_texts.
  induction H as [|x l Hx H IH]; constructor; [|exact IH].
  cbn [arg_text]. by rewrite quote_plain_word.
Qed.

Lemma build_command_plain (l : list string) :
  UBoot.build_command (map AStr l) = Ok (join " " (map shlex.quote l)).
Proof.
  apply build_command_joins_texts. induction l; constructor; auto.
Qed.

(** X3. Two different lists of plain strings never give the same command
    line: the quoting keeps apart what the blanks between the arguments
    would merge. *)
Theorem build_command_tells_arguments_apart (l1 l2 : list string) :
  l1 <> l2 ->
  UBoot.build_command (map AStr l1) <> UBoot.build_command (map AStr l2).
Proof.
  intros Hne Heq. rewrite !build_command_plain in Heq. injection Heq as Heq.
  apply Hne. apply (f_equal sh.split) in Heq.
  rewrite !split_join_quote in Heq. by injection Heq.
Qed.

End CommandLines.

Section CommandsMore.
Import PyStr.
Context {S : Type} (h : handler S).

(** X4. A path that does not lie below [/tftpboot] is refused before the
    channel is touched: [build_command] raises [ValueError], and so do
    [exec], [exec0] and [test], without a call and without a change of
    state. *)
Theorem path_outside_tftpboot_is_refused (self : UBootMachine)
    (args : list Arg) (p : Path) (s : S) :
  APath p ∈ args -> head p <> Some "tftpboot" ->
  UBoot.build_command args = Err ValueError
  /\ run h (UBoot.exec self args) s = (Err ValueError, s, [])
  /\ run h (UBoot.exec0 self args) s = (Err ValueError, s, [])
  /\ run h (UBoot.test self args) s = (Err ValueError, s, []).
Proof.
  intros Hin Hp.
  assert (Hb : UBoot.build_command args = Err ValueError).
  { unfold UBoot.build_command.
    by rewrite (build_command_loop_error args p "" Hin Hp). }
  pose proof (exec_run h self args s) as He. rewrite Hb in He.
  split; [exact Hb|]. split; [exact He|].
  unfold UBoot.exec0, UBoot.test. rewrite !run_bind, He. by split.
Qed.

(** X5. [test] against [exec0]. Both make the same calls and leave the same
    state. [test] returns [True] exactly when [exec0] returns the output; it
    returns [False] exactly when [exec] returned a code other than zero, which
    is when [exec0] raises [CommandFailedException] for the command built;
    and an exception of [exec] ends [test] and [exec0] alike. *)
Theorem test_agrees_with_exec0 (self : UBootMachine) (args : list Arg)
    (s : S) :
  let rt := run h (UBoot.test self args) s in
  let r0 := run h (UBoot.exec0 self args) s in
  steps rt = steps r0 /\ final rt = final r0
  /\ (outcome rt = Ok true <-> exists out, outcome r0 = Ok out)
  /\ (outcome rt = Ok false <->
      exists command out,
        UBoot.build_command args = Ok command
        /\ outcome r0
           = Err (CommandFailedException (HostUBoot self) command out)
        /\ exists ret, outcome (run h (UBoot.exec self args) s) = Ok (ret, out)
                       /\ ret <> 0%Z)
  /\ (forall e, outcome rt = Err e ->
                outcome r0 = Err e
                /\ outcome (run h (UBoot.exec self args) s) = Err e).
Proof.
  intros rt r0. subst rt r0. unfold UBoot.test, UBoot.exec0.
  rewrite !run_bind. pose proof (exec_run h self args s) as He.
  destruct (UBoot.build_command args) as [command|e] eqn:Hb.
  - cbn zeta in He. rewrite He. unfold outcome, final, steps.
    cbn [fst snd].
    destruct (h _ s).1 as [w [[ret out]|e]]; cbn [fst snd].
    + destruct (Z.eqb_spec ret 0) as [->|Hne]; cbn [negb lift bind run fst snd];
        rewrite ?app_nil_r.
      * split; [done|]. split; [done|]. split; [split; eauto|].
        split; [|done]. split; [done|].
        intros (c & o & _ & H & _). discriminate H.
      * split; [done|]. split; [done|]. split.
        { split; [done|]. intros [o H]. discriminate H. }
        split; [|done]. split; [|done]. intros _. exists command, out.
        split; [done|]. split; [done|]. by exists ret.
    + split; [done|]. split; [done|]. split.
      { split; [done|]. intros [o H]. discriminate H. }
      split; [|by intros ? [= <-]]. split; [done|].
      intros (c & o & _ & _ & r & H & _). discriminate H.
  - rewrite He. unfold outcome, final, steps. cbn [fst snd].
    split; [done|]. split; [done|]. split.
    { split; [done|]. intros [o H]. discriminate H. }
    split; [|by intros ? [= <-]]. split; [done|].
    intros (c & o & H & _). discriminate H.
Qed.

End CommandsMore.

(** ** How failures of the channel surface *)

Section Failures.
Import PyStr.
Context {S : Type} (h : handler S).

Ltac step_cases H :=
  repeat (apply elem_of_cons in H as [H|H]);
  try (apply elem_of_nil in H; contradiction);
  try (apply (f_equal step_call) in H; discriminate);
  try (apply (f_equal step_exn) in H; cbn in *; congruence).

Ltac some_step_raised H :=
  unfold no_exn in H;
  repeat (let H1 := fresh "Hs" in
          apply Forall_cons in H as [H1 H];
          cbn [step_exn reply_exn result_exn step_call step_reply snd] in H1);
  congruence.

Ltac failures_done :=
  unfold outcome, steps; cbn [fst snd];
  split; [intros st e Hin He Hne; step_cases Hin|];
  split; [intros c d Hin; step_cases Hin|];
  split; [intros c Hin; step_cases Hin|];
  split;
    [split;
       [first [done | intros _; repeat constructor]
       |let H := fresh "H" in intros H; first [done | some_step_raised H]]|];
  intros c p rg st tm w Hin; step_cases Hin.

(** X7. Failures during the interactive session. A call that raises
    anything but [TimeoutError] ends [interactive] with that same exception;
    a [TimeoutError] from [send] or from [attach_interactive] also passes
    through as it is; [interactive] returns exactly when no call raised; and
    a [TimeoutError] from a [read_until_prompt], which is the final wait, is
    the one that is replaced by [RuntimeError]. *)
Theorem interactive_passes_failures_on (self : UBootMachine) (s : S) :
  let r := run h (UBoot.interactive self) s in
  (forall st e,
      st ∈ steps r -> step_exn st = Some e -> e <> TimeoutError ->
      outcome r = Err e)
  /\ (forall c data,
        mkStep (Send c data) (Err TimeoutError) ∈ steps r ->
        outcome r = Err TimeoutError)
  /\ (forall c,
        mkStep (AttachInteractive c) (Err TimeoutError) ∈ steps r ->
        outcome r = Err TimeoutError)
  /\ (outcome r = Ok tt <-> no_exn (steps r))
  /\ (forall c p rg st tm w,
        mkStep (ReadUntilPrompt c p rg st tm) (w, Err TimeoutError) ∈ steps r ->
        outcome r
        = Err (RuntimeError
                 "Failed to reacquire U-Boot after interactive session!")).
Proof.
  intros r. subst r. unfold UBoot.interactive.
  unfold channel_api.log_message, channel_api.send,
    channel_api.attach_interactive, channel_api.read_until_prompt,
    channel_api.regex_default.
  cbn [bind run try_except].
  destruct (h (LogMessage _) s) as [[] s1]. cbn [fst snd].
  destruct (h (Send _ _) s1) as [[[]|e2] s2]; cbn [fst snd lift bind run];
    [|failures_done].
  destruct (h (AttachInteractive _) s2) as [[[]|e3] s3];
    cbn [fst snd lift bind run]; [|failures_done].
  destruct (h (Send _ _) s3) as [[[]|e4] s4]; cbn [fst snd lift bind run];
    [|failures_done].
  destruct (h (ReadUntilPrompt _ _ _ _ _) s4) as [[w5 [log5|e5]] s5];
    cbn [fst snd lift bind run try_except].
  - destruct (h (LogMessage _) s5) as [[] s6]. failures_done.
  - destruct e5; cbn [bind run]; failures_done.
Qed.

Ltac call_cases H :=
  unfold calls in H; cbn [snd List.map step_call] in H;
  repeat (apply elem_of_cons in H as [H|H]);
  try (apply elem_of_nil in H; contradiction);
  try discriminate H.

(** X6. How the construction fails. An exception raised by a channel call
    ends [__init__] with that same exception. A failed construction is one of
    three: the board has no channel ([RuntimeError]); the last call made
    raised the exception; or no call raised and the boot event holds no
    newline ([IndexError]). The construction never closes the channel. *)
Theorem init_failure_modes (k : UBootClass) (b : Board) (s : S) :
  let r := run h (UBoot.__init__ k b) s in
  (forall st e, st ∈ steps r -> step_exn st = Some e -> outcome r = Err e)
  /\ (forall e,
        outcome r = Err e ->
        (board_channel b = None
         /\ e = RuntimeError "{board!r} does not support a serial connection!")
        \/ (exists st, last (steps r) = Some st /\ step_exn st = Some e)
        \/ (e = IndexError /\ no_exn (steps r)))
  /\ (forall c, Close c ∉ calls r).
Proof.
  intros r. destruct b as [name [ch|]].
  2:{ subst r. cbn. split; [intros st e Hin; by apply elem_of_nil in Hin|].
      split; [intros e [= <-]; by left|].
      intros c Hin. by apply elem_of_nil in Hin. }
  pose proof (init_run h k name ch s) as H. cbn zeta in H. fold r in H.
  clearbody r.
  assert (Hfin : forall (w : string) e,
             match nth_error (split_1 nl w) 1 with
             | Some tail =>
                 Ok {| cls := k;
                       board := {| board_name := name;
                                   board_channel := Some ch |};
                       channel := ch; bootlog := tail |}
             | None => Err IndexError
             end = Err e -> e = IndexError).
  { intros w e. destruct (nth_error _ 1); [discriminate|]. by intros [= <-]. }
  destruct (autoboot_prompt k) as [ab|].
  - destruct (h (ReadUntilPrompt ch ab true _ None) s).1 as [w1 [log1|e1]].
    + destruct (h (Send ch (autoboot_keys k)) _).1 as [u|e2].
      * destruct (h (ReadUntilPrompt ch (prompt k) false None None) _).1
          as [w3 [log3|e3]]; subst r;
          (split; [|split; [|intros c Hin; call_cases Hin]]);
          unfold outcome, steps, no_exn; cbn [fst snd].
        -- intros st e Hin He; step_cases Hin.
        -- intros e He. apply Hfin in He as ->. right; right.
           split; [done|]. repeat constructor.
        -- intros st e Hin He; step_cases Hin.
        -- intros e [= <-]. right; left. eexists. by split.
      * subst r; (split; [|split; [|intros c Hin; call_cases Hin]]);
          unfold outcome, steps, no_exn; cbn [fst snd].
        -- intros st e Hin He; step_cases Hin.
        -- intros e [= <-]. right; left. eexists. by split.
    + subst r; (split; [|split; [|intros c Hin; call_cases Hin]]);
        unfold outcome, steps, no_exn; cbn [fst snd].
      * intros st e Hin He; step_cases Hin.
      * intros e [= <-]. right; left. eexists. by split.
  - destruct (h _ s).1 as [w1 [log1|e1]]; subst r;
      (split; [|split; [|intros c Hin; call_cases Hin]]);
      unfold outcome, steps, no_exn; cbn [fst snd].
    + intros st e Hin He; step_cases Hin.
    + intros e He. apply Hfin in He as ->. right; right.
      split; [done|]. repeat constructor.
    + intros st e Hin He; step_cases Hin.
    + intros e [= <-]. right; left. eexists. by split.
Qed.

End Failures.

(** ** The end of a machine *)

Section DummyBoard.
Import TestBoard.
Variable re_search : string -> string -> option nat.
Variable lab_exec0 : list Arg -> World -> result string * World.

Lemma set_chans_id (w : World) : set_chans (chans w) w = w.
Proof. by destruct w. Qed.

(** X8. A destroyed machine. On the lab host of the dummy board, whatever
    its commands do, [destroy] succeeds, and succeeds again without a
    change; after it, for arguments whose command line builds, [exec],
    [exec0] and [test] raise [ChannelClosedException], and so does
    [interactive]; [exec] leaves the lab host, with what was sent to the
    console, as it was. *)
Theorem destroyed_machine_refuses_commands (self : UBootMachine)
    (args : list Arg) (command : string) (w : World) :
  UBoot.build_command args = Ok command ->
  let h := handle re_search lab_exec0 in
  let rd := run h (UBoot.destroy self) w in
  let w1 := final rd in
  outcome rd = Ok tt
  /\ run h (UBoot.destroy self) w1 = (Ok tt, w1, steps (run h (UBoot.destroy self) w1))
  /\ outcome (run h (UBoot.exec self args) w1) = Err ChannelClosedException
  /\ outcome (run h (UBoot.exec0 self args) w1) = Err ChannelClosedException
  /\ outcome (run h (UBoot.test self args) w1) = Err ChannelClosedException
  /\ final (run h (UBoot.exec self args) w1) = w1
  /\ outcome (run h (UBoot.interactive self) w1) = Err ChannelClosedException.
Proof.
  intros Hb h rd w1.
  assert (Hw1 : match chans w !! channel self with
                | Some ch =>
                    rd = (Ok tt,
                          set_chans (<[channel self := Channel.set_closed ch]>
                                       (chans w)) w,
                          [mkStep (Close (channel self)) (Ok tt)])
                | None => rd = (Ok tt, w, [mkStep (Close (channel self)) (Ok tt)])
                end).
  { subst rd h. unfold UBoot.destroy, channel_api.close. cbn [run].
    unfold handle, on_chan. by destruct (chans w !! channel self). }
  assert (Hlook : match chans w1 !! channel self with
                  | Some ch => Channel.closed ch = true
                  | None => True
                  end).
  { subst w1. destruct (chans w !! channel self) as [ch|] eqn:E;
      rewrite Hw1; unfold final; cbn [fst snd chans set_chans].
    - by rewrite lookup_insert_eq.
    - by rewrite E. }
  assert (Hout : outcome rd = Ok tt).
  { destruct (chans w !! channel self); by rewrite Hw1. }
  clearbody w1. clear Hw1. clearbody rd.
  assert (Hexec : run h (UBoot.exec self args) w1
                  = (Err ChannelClosedException, w1,
                     steps (run h (UBoot.exec self args) w1))).
  { pose proof (exec_run h self args w1) as He. rewrite Hb in He.
    cbn zeta in He. rewrite He. unfold steps. cbn [fst snd].
    subst h. unfold handle, on_chan.
    destruct (chans w1 !! channel self) as [ch|] eqn:E; [|reflexivity].
    unfold Channel.send. rewrite Hlook. cbn [fst snd].
    by rewrite insert_id, set_chans_id. }
  split; [exact Hout|]. split.
  { subst h. unfold UBoot.destroy, channel_api.close. cbn [run].
    unfold steps, handle, on_chan.
    destruct (chans w1 !! channel self) as [ch|] eqn:E; [|reflexivity].
    cbn [fst snd lift run Channel.close].
    assert (Channel.set_closed ch = ch) as ->
        by (destruct ch; cbn in Hlook; by subst).
    by rewrite insert_id, set_chans_id. }
  split; [by rewrite Hexec|].
  split; [unfold UBoot.exec0; by rewrite run_bind, Hexec|].
  split; [unfold UBoot.test; by rewrite run_bind, Hexec|].
  split; [by rewrite Hexec|].
  subst h. unfold UBoot.interactive, channel_api.log_message, channel_api.send.
  cbn [bind run]. unfold outcome, handle at 2 3 4. cbn [fst snd add_log].
  unfold on_chan. cbn [chans add_log].
  destruct (chans w1 !! channel self) as [ch|] eqn:E; [|reflexivity].
  unfold Channel.send. rewrite Hlook. reflexivity.
Qed.

End DummyBoard.

(** ** What the channel selftest requires *)

Section MachineChannelOutcome.
Import PyStr selftest.
Variable raw_command : string -> ChanM string.

Lemma cbind_ok {A B : Type} (m : ChanM A) (f : A -> ChanM B)
    (ch chf : Channel.t) (b : B) :
  cbind m f ch = (Ok b, chf) ->
  exists a ch1, m ch = (Ok a, ch1) /\ f a ch1 = (Ok b, chf).
Proof.
  unfold cbind. destruct (m ch) as [[a|e] ch1]; [eauto|discriminate].
Qed.

Lemma cassert_ok (cond : bool) (msg : string) (ch chf : Channel.t) (u : unit) :
  cassert cond msg ch = (Ok u, chf) -> cond = true /\ chf = ch.
Proof. unfold cassert. destruct cond; [by intros [= <-]|discriminate]. Qed.

Lemma raises_closed_ok {A : Type} (m : ChanM A) (ch chf : Channel.t) :
  raises_closed m ch = (Ok true, chf) ->
  m ch = (Err ChannelClosedException, chf).
Proof.
  unfold raises_closed. destruct (m ch) as [[a|e] ch1]; [discriminate|].
  destruct e; try discriminate. by intros [= <-].
Qed.

Lemma recv_closed (ch chf : Channel.t) :
  Channel.recv ch = (Err ChannelClosedException, chf) ->
  Channel.closed chf = true.
Proof.
  unfold Channel.recv. destruct ch as [c b w s]. cbn.
  destruct c; [by intros [= <-]|]. destruct b; [|discriminate].
  destruct w as [|[[|? ?]| |] w]; try discriminate; by intros [= <-].
Qed.

(** X12. What a passing channel selftest shows. If
    [selftest_machine_channel] passes, with a local or a remote close, the
    channel is closed when it ends, the first command answered
    ["Hello World\n"], and the channel was still open after it. *)
Theorem selftest_machine_channel_ends_closed (remote_close : bool)
    (ch : Channel.t) :
  fst (selftest_machine_channel raw_command remote_close ch) = Ok tt ->
  Channel.closed (snd (selftest_machine_channel raw_command remote_close ch))
  = true
  /\ exists ch1,
       raw_command "echo Hello World" ch = (Ok ("Hello World" ++ nl)%string, ch1)
       /\ Channel.closed ch1 = false.
Proof.
  destruct (selftest_machine_channel raw_command remote_close ch)
    as [res chf] eqn:E.
  cbn [fst snd]. intros ->. unfold selftest_machine_channel in E.
  apply cbind_ok in E as (out & ch1 & Hraw & E).
  apply cbind_ok in E as (u1 & ch2 & Hout & E).
  apply cassert_ok in Hout as [Hout ->].
  apply String.eqb_eq in Hout as ->.
  apply cbind_ok in E as (o & ch3 & Ho & E). injection Ho as <- <-.
  apply cbind_ok in E as (u2 & ch4 & Hopen & E).
  apply cassert_ok in Hopen as [Hopen ->].
  apply cbind_ok in E as (u3 & ch5 & _ & E).
  apply cbind_ok in E as (o' & ch6 & _ & E).
  apply cbind_ok in E as (u4 & ch7 & _ & E).
  apply cbind_ok in E as (r1 & ch8 & _ & E).
  apply cbind_ok in E as (u5 & ch9 & _ & E).
  apply cbind_ok in E as (r2 & ch10 & Hrecv & E).
  apply cassert_ok in E as [-> ->].
  apply raises_closed_ok, recv_closed in Hrecv.
  split; [exact Hrecv|]. exists ch1. split; [exact Hraw|].
  unfold Channel.isopen in Hopen. by destruct (Channel.closed ch1).
Qed.

End MachineChannelOutcome.

Lemma selftest_machine_channel_passes_witness :
  fst (selftest.selftest_machine_channel DemoChannel.raw_command true
         (Demo.open_channel DemoChannel.console)) = Ok tt.
Proof.
  apply (selftest_machine_channel_passes DemoChannel.raw_command true
           (Demo.open_channel DemoChannel.console)
           {| Channel.closed := false; Channel.buffer := "";
              Channel.wire := [Channel.Data "exit"; Channel.Hangup];
              Channel.sent := [("echo Hello World" ++ PyStr.nl)%string] |}
           "exit" []).
  - vm_compute; reflexivity.
  - reflexivity.
  - intros _. split; [reflexivity|]. split; [reflexivity|]. discriminate.
Defined.

Lemma selftest_machine_channel_ends_closed_witness :
  Channel.closed
    (snd (selftest.selftest_machine_channel DemoChannel.raw_command false
            (Demo.open_channel DemoChannel.console)))
  = true.
Proof.
  apply (selftest_machine_channel_ends_closed DemoChannel.raw_command false
           (Demo.open_channel DemoChannel.console)).
  vm_compute; reflexivity.
Defined.

(** ** The further properties at work *)

Lemma build_command_joins_texts_witness :
  UBoot.build_command
    [AStr "tftp"; ASpecial (Raw "${loadaddr}");
     APath ["tftpboot"; "my board"; "u-boot.bin"]]
  = Ok "tftp ${loadaddr} 'my board/u-boot.bin'".
Proof.
  apply (build_command_joins_texts
           [AStr "tftp"; ASpecial (Raw "${loadaddr}");
            APath ["tftpboot"; "my board"; "u-boot.bin"]]
           ["tftp"; "${loadaddr}"; "'my board/u-boot.bin'"]).
  repeat constructor.
Defined.

Lemma build_command_plain_words_witness :
  UBoot.build_command (map AStr ["setenv"; "ipaddr"; "192.168.0.1"])
  = Ok "setenv ipaddr 192.168.0.1".
Proof.
  apply (build_command_plain_words ["setenv"; "ipaddr"; "192.168.0.1"]).
  repeat constructor.
Defined.

Lemma build_command_tells_arguments_apart_witness :
  UBoot.build_command (map AStr ["Hello World"])
  <> UBoot.build_command (map AStr ["Hello"; "World"]).
Proof.
  apply (build_command_tells_arguments_apart ["Hello World"] ["Hello"; "World"]).
  discriminate.
Defined.

Lemma path_outside_tftpboot_is_refused_witness :
  run Demo.handle
    (UBoot.exec0 Demo.machine [AStr "tftp"; APath ["etc"; "passwd"]])
    (Demo.world Demo.console_autoboot)
  = (Err ValueError, Demo.world Demo.console_autoboot, []).
Proof.
  apply (path_outside_tftpboot_is_refused Demo.handle Demo.machine
           [AStr "tftp"; APath ["etc"; "passwd"]] ["etc"; "passwd"]
           (Demo.world Demo.console_autoboot)).
  - apply list_elem_of_further, list_elem_of_here.
  - discriminate.
Defined.

Lemma test_agrees_with_exec0_witness :
  outcome (run Demo.handle (UBoot.test Demo.machine [AStr "false"])
             (Demo.world Demo.console_autoboot))
  = Ok false
  /\ exists command out,
       UBoot.build_command [AStr "false"] = Ok command
       /\ outcome (run Demo.handle (UBoot.exec0 Demo.machine [AStr "false"])
                     (Demo.world Demo.console_autoboot))
          = Err (CommandFailedException (HostUBoot Demo.machine) command out)
       /\ exists ret,
            outcome (run Demo.handle (UBoot.exec Demo.machine [AStr "false"])
                       (Demo.world Demo.console_autoboot))
            = Ok (ret, out)
            /\ ret <> 0%Z.
Proof.
  split; [vm_compute; reflexivity|].
  apply (proj1 (proj1 (proj2 (proj2 (proj2
           (test_agrees_with_exec0 Demo.handle Demo.machine [AStr "false"]
              (Demo.world Demo.console_autoboot))))))).
  vm_compute; reflexivity.
Defined.

Lemma init_failure_modes_witness :
  mkStep (first_read TestBoardUBoot Demo.test_board 0%nat)
         ("", Err TimeoutError)
  ∈ steps (run Demo.handle (UBoot.__init__ TestBoardUBoot Demo.test_board)
             (Demo.world Demo.console_silent))
  /\ outcome (run Demo.handle (UBoot.__init__ TestBoardUBoot Demo.test_board)
                (Demo.world Demo.console_silent))
     = Err TimeoutError.
Proof.
  assert (Hin : mkStep (first_read TestBoardUBoot Demo.test_board 0%nat)
                  ("", Err TimeoutError)
                ∈ steps (run Demo.handle
                           (UBoot.__init__ TestBoardUBoot Demo.test_board)
                           (Demo.world Demo.console_silent))).
  { vm_compute. apply list_elem_of_here. }
  split; [exact Hin|].
  apply (proj1 (init_failure_modes Demo.handle TestBoardUBoot Demo.test_board
                  (Demo.world Demo.console_silent))
           _ TimeoutError Hin).
  reflexivity.
Defined.

Lemma interactive_passes_failures_on_witness :
  let lost := {| cls := TestBoardUBoot; board := Demo.test_board;
                 channel := 7%nat; bootlog := "" |} in
  outcome (run Demo.handle (UBoot.interactive lost)
             (Demo.world Demo.console_autoboot))
  = Err ChannelClosedException.
Proof.
  intros lost.
  apply (proj1 (interactive_passes_failures_on Demo.handle lost
                  (Demo.world Demo.console_autoboot))
           (mkStep (Send 7%nat (" " ++ PyStr.nl)) (Err ChannelClosedException))
           ChannelClosedException).
  - vm_compute. apply list_elem_of_further, list_elem_of_here.
  - reflexivity.
  - discriminate.
Defined.

Lemma destroyed_machine_refuses_commands_witness :
  outcome (run Demo.handle (UBoot.exec0 Demo.machine [AStr "version"])
             (final (run Demo.handle (UBoot.destroy Demo.machine)
                       (Demo.world Demo.console_autoboot))))
  = Err ChannelClosedException.
Proof.
  apply (proj1 (proj2 (proj2 (proj2
           (destroyed_machine_refuses_commands Channel.re_literal
              Demo.lab_exec0 Demo.machine
              [AStr "version"] "version" (Demo.world Demo.console_autoboot)
              eq_refl))))).
Defined.

(** ** What a passing power selftest shows *)

Section PowerSelftestOutcome.
Context {S : Type} (h : handler S).

Ltac peel :=
  cbn [run bind try_finally try_except lift assert fst snd negb];
  match goal with
  | |- context [h ?c ?s] =>
      is_var s;
      let rep := fresh "rep" in
      let s' := fresh "s" in
      destruct (h c s) as [rep s']; cbn [fst snd]; destruct rep
  end;
  cbn [run bind try_finally try_except lift assert fst snd negb];
  try (intros Hbad; discriminate Hbad).

Ltac caught :=
  match goal with
  | |- context [match ?e with TestException => _ | _ => _ end] =>
      is_var e; destruct e
  end;
  cbn [run bind try_finally try_except lift assert fst snd negb];
  try (intros Hbad; discriminate Hbad).

Ltac refute HF :=
  exfalso;
  repeat (let H := fresh "Hs" in
          apply Forall_cons in HF as [H HF];
          cbn [step_exn reply_exn result_exn step_call step_reply snd] in H);
  congruence.

Ltac passed stale :=
  let HF := fresh "HF" in
  intros _ HF;
  first [ refute HF
        | exists stale; eexists _, _;
          (split; [reflexivity|]); split; reflexivity ].

(** X10. What a passing run of [selftest_board_power] shows, on any lab host
    and board, none of whose calls raises the test's own [TestException]
    (a class local to the test). The test removed a power file it found at
    the start; it then entered the board scope twice, and each time the
    board was powered on and connected, the power file was seen inside the
    scope, the channel was closed and the board powered off, in this order;
    the power file was seen to be absent before the first scope and after
    each one. *)
Theorem selftest_board_power_pass_shows_power_cycles (wd : Path) (s : S) :
  let r := run h (selftest.selftest_board_power wd) s in
  let p := TestBoard.power_path wd in
  outcome r = Ok tt ->
  Forall (fun st => step_exn st <> Some TestException) (steps r) ->
  exists (stale : bool) (ch1 ch2 : chan_id),
    calls r
    = [PathExists p]
      ++ (if stale then [LabExec0 [AStr "rm"; APath p]] else [])
      ++ [LogMessage "Emulating a normal run ..."; PathExists p;
          PowerOn; Connect; PathExists p; Close ch1; PowerOff;
          PathExists p;
          LogMessage "Emulating a failing run ..."; PowerOn; Connect;
          PathExists p; LogMessage "raise TestException()"; Close ch2;
          PowerOff; PathExists p]
    /\ omap seen (steps r) = [stale; false; true; false; true; false]
    /\ List.filter is_power (calls r) = [PowerOn; PowerOff; PowerOn; PowerOff].
Proof.
  intros r p. subst r.
  unfold selftest.selftest_board_power, selftest.path_exists,
    BoardScope.with_board, BoardScope.poweron, BoardScope.poweroff,
    BoardScope.connect, channel_api.close, channel_api.log_message.
  fold p. unfold outcome, calls, steps.
  peel.
  - repeat first [peel | caught]; passed true.
  - repeat first [peel | caught]; passed false.
Qed.

End PowerSelftestOutcome.

Lemma selftest_board_power_pass_shows_power_cycles_witness :
  List.filter is_power
    (calls (run Demo.handle (selftest.selftest_board_power ["tmp"])
              (Demo.world Demo.console_autoboot)))
  = [PowerOn; PowerOff; PowerOn; PowerOff].
Proof.
  destruct (selftest_board_power_pass_shows_power_cycles Demo.handle ["tmp"]
              (Demo.world Demo.console_autoboot))
    as (stale & ch1 & ch2 & _ & _ & H).
  - vm_compute; reflexivity.
  - vm_compute. repeat (apply Forall_cons_2; [discriminate|]).
    apply Forall_nil_2.
  - exact H.
Defined.
